(** * Pinger: a stop-and-wait ICMP echo client

    Shallow embedding of the two variants of the program:
    - [Main]: the IPv4-only variant (main.go);
    - [Dual]: the IPv4/IPv6 variant (the second source file).

    The wire codec ([timeToBytes], [bytesToTime]) is textually the same in
    both variants and is embedded once, in [Codec]. *)

From Stdlib Require Import ZArith List String Ascii Bool Lia DecimalString.
Import ListNotations.
Open Scope string_scope.
Open Scope Z_scope.

(** ** Go runtime values used by the program *)

Module Go.

(** A computation that may end in a run-time panic (index out of range). *)
Inductive result (A : Type) : Type :=
| Ok (a : A)
| Panic.
Arguments Ok {A} a.
Arguments Panic {A}.

Definition bind {A B} (r : result A) (k : A -> result B) : result B :=
  match r with
  | Ok a => k a
  | Panic => Panic
  end.

Notation "x <- r ;; k" := (bind r (fun x => k))
  (at level 61, r at next level, right associativity).

(** [int64] (and [int] on the 64-bit targets): a [Z] reduced to the signed
    64-bit range after every arithmetic operation. *)
Definition wrap64 (x : Z) : Z := (x + 2 ^ 63) mod 2 ^ 64 - 2 ^ 63.

Definition int64_range (x : Z) : Prop := - 2 ^ 63 <= x < 2 ^ 63.

(** [byte(x)]: conversion of an integer to [uint8]. *)
Definition byte (x : Z) : Z := x mod 256.

(** [s[i]] on a slice: panics when [i] is out of range. *)
Definition index {A} (s : list A) (i : Z) : result A :=
  if i <? 0 then Panic
  else match nth_error s (Z.to_nat i) with
       | Some a => Ok a
       | None => Panic
       end.

(** [s[i] = v] on a slice that is known to hold index [i]. *)
Fixpoint store {A} (s : list A) (i : nat) (v : A) : list A :=
  match s, i with
  | [], _ => []
  | _ :: s', O => v :: s'
  | a :: s', S i' => a :: store s' i' v
  end.

(** [for i := 0; i < n; i++ { body }] over a state. *)
Definition for_range {S} (n : nat) (body : Z -> S -> S) (s : S) : S :=
  fold_left (fun st i => body (Z.of_nat i) st) (seq 0 n) s.

(** [time.Time] of the Go library, as the instant it denotes: whole seconds since the Unix
    epoch and the nanoseconds within that second. *)
Record Time : Type := mkTime { unix_sec : Z; unix_nsec : Z }.

Definition Time_wf (t : Time) : Prop := 0 <= unix_nsec t < 1000000000.

(** Nanoseconds since the epoch of an instant, unbounded. *)
Definition nanos (t : Time) : Z := unix_sec t * 1000000000 + unix_nsec t.

(** [t.UnixNano()]: the count is computed in [int64]. *)
Definition UnixNano (t : Time) : Z := wrap64 (nanos t).

(** [time.Unix(sec, nsec)]: [nsec] outside [0, 999999999] is carried into
    the seconds. *)
Definition time_Unix (sec nsec : Z) : Time :=
  if (nsec <? 0) || (1000000000 <=? nsec) then
    let n := Z.quot nsec 1000000000 in
    let sec := sec + n in
    let nsec := nsec - n * 1000000000 in
    if nsec <? 0 then mkTime (sec - 1) (nsec + 1000000000)
    else mkTime sec nsec
  else mkTime sec nsec.

(** [time.Duration] is an [int64] count of nanoseconds; [t.Sub(u)] of the
    Go library saturates at the ends of its range. *)
Definition time_Sub (t u : Time) : Z :=
  let d := nanos t - nanos u in
  if d <? - 2 ^ 63 then - 2 ^ 63
  else if 2 ^ 63 <=? d then 2 ^ 63 - 1
  else d.

(** [time.Since(u)], with the reading of the clock made explicit. *)
Definition time_Since (now u : Time) : Z := time_Sub now u.

(** [d.Milliseconds()]. *)
Definition Milliseconds (d : Z) : Z := Z.quot d 1000000.

(** The verb [%d] of [fmt] on an integer. *)
Definition fmt_d (n : Z) : string := NilZero.string_of_int (Z.to_int n).

(** [fmtFrac] of package [time]: the fraction of [v / 10^prec] without its
    trailing zeros (and without the point when it is zero), and [v / 10^prec]. *)
Fixpoint fmtFrac (prec : nat) (v : Z) (print : bool) (acc : string)
    : string * Z :=
  match prec with
  | O => (if print then String "." acc else acc, v)
  | S prec' =>
      let digit := v mod 10 in
      let print := print || negb (digit =? 0) in
      fmtFrac prec' (v / 10) print
        (if print then (fmt_d digit ++ acc)%string else acc)
  end.

(** The verb [%v] of [fmt] on a [time.Duration], which is [d.String()]:
    [72h3m0.5s], with a smaller unit below one second and [0s] for zero. *)
Definition Duration_String (d : Z) : string :=
  let u := Z.abs d in
  let body :=
    if u <? 1000000000 then
      if u =? 0 then "0s"
      else if u <? 1000 then (fmt_d u ++ "ns")%string
      else if u <? 1000000 then
        let (f, v) := fmtFrac 3 u false "" in
        (fmt_d v ++ f
           ++ String (ascii_of_nat 194) (String (ascii_of_nat 181) "s"))%string
      else
        let (f, v) := fmtFrac 6 u false "" in (fmt_d v ++ f ++ "ms")%string
    else
      let (f, v) := fmtFrac 9 u false "" in
      let secs := (fmt_d (v mod 60) ++ f ++ "s")%string in
      let v := v / 60 in
      if 0 <? v then
        let mins := (fmt_d (v mod 60) ++ "m")%string in
        let v := v / 60 in
        if 0 <? v then (fmt_d v ++ "h" ++ mins ++ secs)%string
        else (mins ++ secs)%string
      else secs in
  if d <? 0 then ("-" ++ body)%string else body.

End Go.

Import Go.

(** ** Wire codec of the timestamp payload *)

Module Codec.

(** [timeToBytes]: the eight bytes of [t.UnixNano()], most significant
    first. *)
Definition timeToBytes (t : Time) : list Z :=
  let bytes := repeat 0 8 in
  let nsecs := UnixNano t in
  for_range 8
    (fun i bytes =>
       store bytes (Z.to_nat i)
         (byte (Z.land 255 (Z.shiftr nsecs ((7 - i) * 8)))))
    bytes.

(** [bytesToTime]: reads [bytes[0..7]]; every addition and shift is an
    [int64] operation. *)
Definition bytesToTime (bytes : list Z) : result Time :=
  nsecs <- for_range 8
             (fun i acc =>
                nsecs <- acc ;;
                b <- index bytes i ;;
                Ok (wrap64 (nsecs + wrap64 (Z.shiftl b ((7 - i) * 8)))))
             (Ok 0) ;;
  Ok (time_Unix (Z.quot nsecs 1000000000) (Z.rem nsecs 1000000000)).

(** The byte [timeToBytes] stores at index [i] for the count [n]. *)
Definition nth_byte (n i : Z) : Z :=
  byte (Z.land 255 (Z.shiftr n ((7 - i) * 8))).

End Codec.

Import Codec.

(** ** ICMP messages, as [icmp.ParseMessage] returns them and as
    [icmp.Message.Marshal] takes them *)

Module ICMP.

(** [icmp.Type]: an interface value, so the family of the type takes part
    in every comparison. *)
Inductive ICMPType : Type :=
| ipv4_ICMPType (n : Z)
| ipv6_ICMPType (n : Z).

Definition ipv4_ICMPTypeEchoReply : ICMPType := ipv4_ICMPType 0.
Definition ipv4_ICMPTypeEcho : ICMPType := ipv4_ICMPType 8.
Definition ipv4_ICMPTypeTimeExceeded : ICMPType := ipv4_ICMPType 11.
Definition ipv6_ICMPTypeTimeExceeded : ICMPType := ipv6_ICMPType 3.
Definition ipv6_ICMPTypeEchoRequest : ICMPType := ipv6_ICMPType 128.
Definition ipv6_ICMPTypeEchoReply : ICMPType := ipv6_ICMPType 129.

Definition ICMPType_eqb (a b : ICMPType) : bool :=
  match a, b with
  | ipv4_ICMPType n, ipv4_ICMPType m => n =? m
  | ipv6_ICMPType n, ipv6_ICMPType m => n =? m
  | _, _ => false
  end.

(** [t.Protocol()]. *)
Definition Protocol (t : ICMPType) : Z :=
  match t with
  | ipv4_ICMPType _ => 1
  | ipv6_ICMPType _ => 58
  end.

(** [icmp.MessageBody]: the program tells [*icmp.Echo] from every other
    body and looks no further. *)
Inductive MessageBody : Type :=
| Echo (ID Seq : Z) (Data : list Z)
| OtherBody.

Record Message : Type := mkMessage {
  Type_ : ICMPType;
  Code : Z;
  Body : MessageBody
}.

(** What [icmp.ParseMessage] returns: an error or a message. *)
Definition ParseResult : Type := (string + Message)%type.

(** [net.IPAddr]; [IP] is kept as [IP.String()] renders it. *)
Record IPAddr : Type := mkIPAddr { IP : string; Zone : string }.

End ICMP.

Import ICMP.

(** ** What the control loop does to the outside *)

Inductive Effect : Type :=
| Printf (line : string)                (* fmt.Printf on standard output *)
| GoRecvEchoReply                       (* go p.recvEchoReply(cn, ping) *)
| WriteTo (m : Message) (dst : IPAddr)  (* cn.WriteTo(m.Marshal(nil), dst) *)
| NewTimer (d : Z)
| TimerStop
| TimerReset (d : Z)
| Sleep (d : Z).

(** Which case of the [select] is taken. *)
Inductive Select : Type :=
| TimerC   (* case <-timer.C *)
| PingCh.  (* case res := <-ping *)

(** What one iteration of the loop takes from the outside: the case the
    [select] would take if both were ready, the clock readings of the
    handler and of [sendEcho], and the error of [WriteTo], if any. *)
Record CycleInput : Type := mkCycle {
  sel : Select;
  now_recv : Time;
  now_send : Time;
  write_err : option string
}.

(** How an iteration of the loop body ends. *)
Inductive BodyExit : Type :=
| Continue
| Break
| BodyPanic.

(** How a run of [pingLoop] stands when the inputs are used up. *)
Inductive Status : Type :=
| InSelect                        (* blocked in the [select] of the loop *)
| Returned (err : option string)  (* [pingLoop] returned [err] *)
| Panicked.

Definition nl : string := String (ascii_of_nat 10) EmptyString.

Definition Second : Z := 1000000000.
Definition Millisecond : Z := 1000000.

(** ** The IPv4/IPv6 variant *)

Module Dual.

Record PingProc : Type := mkPingProc {
  id : Z;
  seqnum : Z;
  dst : IPAddr;
  isIPv6 : bool;
  ttl : Z;
  rttLimit : Z;
  interval : Z
}.

Definition set_seqnum (p : PingProc) (n : Z) : PingProc :=
  mkPingProc (id p) n (dst p) (isIPv6 p) (ttl p) (rttLimit p) (interval p).

(** [newPingProc]; [r1] and [r2] are the two draws of [rand.Intn(1 << 16)]. *)
Definition newPingProc (dstIP : IPAddr) (isIPv6 : bool) (ttl : Z)
    (r1 r2 : Z) : PingProc :=
  mkPingProc r1 r2 dstIP isIPv6 ttl (2 * Second) Second.

(** [sendEcho]: returns the session after the call, what was written and
    the error returned. *)
Definition sendEcho (p : PingProc) (now : Time) (werr : option string)
    : PingProc * list Effect * option string :=
  let msgType :=
    if negb (isIPv6 p) then ipv4_ICMPTypeEcho else ipv6_ICMPTypeEchoRequest in
  let p := set_seqnum p (wrap64 (seqnum p + 1)) in
  let t := timeToBytes now in
  let m := mkMessage msgType 0 (Echo (id p) (seqnum p) t) in
  match werr with
  | Some err => (p, [WriteTo m (dst p)], Some ("Send echo error: " ++ err)%string)
  | None => (p, [WriteTo m (dst p)], None)
  end.

Record recvResult : Type := mkRecvResult {
  msg : option Message;   (* [nil] or a message *)
  res_ttl : Z;
  err : option string
}.

(** What one read on the connection returns: an error, or a datagram with
    its control message ([nil], or the TTL or hop limit in it) and what
    [icmp.ParseMessage] makes of the buffer for a protocol number. *)
Inductive ReadOutcome : Type :=
| ReadErr (e : string)
| ReadOk (cm : option Z) (parse : Z -> ParseResult).

(** How the receiver stands when the reads are used up. *)
Inductive RecvStatus : Type :=
| InRead         (* blocked in [ReadFrom] *)
| RecvReturned.  (* the goroutine returned *)

(** [recvEchoReply]: the values sent on the channel, in order, for the
    successive outcomes of [ReadFrom]. *)
Fixpoint recvEchoReply (p : PingProc) (reads : list ReadOutcome)
    : list recvResult * RecvStatus :=
  match reads with
  | [] => ([], InRead)
  | rd :: reads' =>
      let read :=
        if negb (isIPv6 p) then
          match rd with
          | ReadErr e =>
              inl (mkRecvResult None (-1) (Some ("Send echo error: " ++ e)%string))
          | ReadOk cm parse =>
              inr (match cm with Some v => v | None => 0 end, parse)
          end
        else
          match rd with
          | ReadErr e =>
              inl (mkRecvResult None (-1) (Some ("Send echo error: " ++ e)%string))
          | ReadOk cm parse =>
              inr (match cm with Some v => v | None => 0 end, parse)
          end in
      match read with
      | inl r => ([r], RecvReturned)
      | inr (ttl, parse) =>
          let protoNum :=
            if isIPv6 p then Protocol ipv6_ICMPTypeEchoReply
            else Protocol ipv4_ICMPTypeEchoReply in
          match parse protoNum with
          | inl e =>
              ([mkRecvResult None (-1) (Some ("Send echo error: " ++ e)%string)],
               RecvReturned)
          | inr m =>
              let (out, st) := recvEchoReply p reads' in
              (mkRecvResult (Some m) ttl None :: out, st)
          end
      end
  end.

(** [handleEchoReply]; [now] is the clock read by [time.Since]. *)
Definition handleEchoReply (p : PingProc) (m : Message) (ttl : Z) (now : Time)
    : result (list Effect) :=
  rtt <- match Body m with
         | Echo bID bSeq bData =>
             if (bID =? id p) && (bSeq =? seqnum p) then
               t <- bytesToTime bData ;; Ok (time_Since now t)
             else Ok 0
         | OtherBody => Ok 0
         end ;;
  Ok [Printf ("64 bytes from " ++ IP (dst p) ++ ": icmp_seq=" ++ fmt_d (seqnum p)
              ++ " ttl=" ++ fmt_d ttl ++ " time=" ++ fmt_d (Milliseconds rtt)
              ++ "ms" ++ nl)%string].

Definition handleTimeExceeded (p : PingProc) : list Effect :=
  [Printf ("From " ++ IP (dst p) ++ ": icmp_seq=" ++ fmt_d (seqnum p)
           ++ " Time exceeded: Hop limit" ++ nl)%string].

(** [handleMsg]; a [nil] message is a nil-pointer dereference. *)
Definition handleMsg (p : PingProc) (m : option Message) (ttl : Z) (now : Time)
    : result (list Effect) :=
  match m with
  | None => Panic
  | Some m =>
      if ICMPType_eqb (Type_ m) ipv4_ICMPTypeEchoReply
         || ICMPType_eqb (Type_ m) ipv6_ICMPTypeEchoReply
      then handleEchoReply p m ttl now
      else if ICMPType_eqb (Type_ m) ipv4_ICMPTypeTimeExceeded
              || ICMPType_eqb (Type_ m) ipv6_ICMPTypeTimeExceeded
      then Ok (handleTimeExceeded p)
      else Ok [Printf "Unexpected message type received."]
  end.

(** One iteration of the [for] of [pingLoop]. [ch] holds the values the
    receiver has still to hand over; when it holds none the receive case
    cannot be taken and the [select] ends with the timer. *)
Record Iteration : Type := mkIteration {
  it_proc : PingProc;
  it_chan : list recvResult;
  it_trace : list Effect;
  it_exit : BodyExit
}.

Definition loop_body (p : PingProc) (ch : list recvResult) (c : CycleInput)
    : Iteration :=
  let selected :=
    match sel c, ch with
    | PingCh, res :: ch' =>
        let handled :=
          match err res with
          | None => handleMsg p (msg res) (res_ttl res) (now_recv c)
          | Some e =>
              Ok [Printf ("Error during message receiving: " ++ e ++ "." ++ nl)%string]
          end in
        (ch', es <- handled ;; Ok (es ++ [TimerStop; Sleep (interval p)])%list)
    | _, _ =>
        (ch, Ok [Printf ("unreachable: " ++ IP (dst p) ++ "." ++ nl)%string])
    end in
  match selected with
  | (ch', Panic) => mkIteration p ch' [] BodyPanic
  | (ch', Ok es) =>
      match sendEcho p (now_send c) (write_err c) with
      | (p', ws, Some e) =>
          mkIteration p' ch'
            (es ++ [TimerReset (rttLimit p)] ++ ws
                ++ [Printf ("Send error: " ++ e ++ "." ++ nl)%string])%list
            Break
      | (p', ws, None) =>
          mkIteration p' ch' (es ++ [TimerReset (rttLimit p)] ++ ws)%list Continue
      end
  end.

Record Run : Type := mkRun {
  proc : PingProc;
  chan : list recvResult;
  trace : list Effect;
  status : Status
}.

(** The [for] loop, one iteration for each input. After a [break] come
    [timer.Stop()] and [return nil]. *)
Fixpoint for_loop (p : PingProc) (ch : list recvResult) (cs : list CycleInput)
    : Run :=
  match cs with
  | [] => mkRun p ch [] InSelect
  | c :: cs' =>
      let it := loop_body p ch c in
      match it_exit it with
      | Continue =>
          let r := for_loop (it_proc it) (it_chan it) cs' in
          mkRun (proc r) (chan r) (it_trace it ++ trace r)%list (status r)
      | Break =>
          mkRun (it_proc it) (it_chan it) (it_trace it ++ [TimerStop])%list
            (Returned None)
      | BodyPanic =>
          mkRun (it_proc it) (it_chan it) (it_trace it) Panicked
      end
  end.

(** [pingLoop]: the error of the first [sendEcho] is dropped. *)
Definition pingLoop (p : PingProc) (now0 : Time) (werr0 : option string)
    (ch : list recvResult) (cs : list CycleInput) : Run :=
  let '(p1, ws, _) := sendEcho p now0 werr0 in
  let r := for_loop p1 ch cs in
  mkRun (proc r) (chan r)
    ([GoRecvEchoReply] ++ ws ++ [NewTimer (rttLimit p1)] ++ trace r)%list
    (status r).

(** The session: the loop fed by the receiver task. *)
Definition session (p : PingProc) (now0 : Time) (werr0 : option string)
    (reads : list ReadOutcome) (cs : list CycleInput) : Run :=
  pingLoop p now0 werr0 (fst (recvEchoReply p reads)) cs.

(** The end of [main]: what is printed after [pingLoop] and the exit status
    of the process ([None] while the loop runs). *)
Definition main_end (st : Status) : list Effect * option Z :=
  match st with
  | Returned (Some e) => ([Printf (e ++ nl)%string], Some 1)
  | Returned None => ([], Some 0)
  | Panicked => ([], Some 2)
  | InSelect => ([], None)
  end.

End Dual.

(** ** The IPv4-only variant *)

Module Main.

Definition protoNum : Z := 1.

Record PingProc : Type := mkPingProc {
  id : Z;
  seqnum : Z;
  dst : IPAddr;
  rttLimit : Z;
  interval : Z
}.

Definition set_seqnum (p : PingProc) (n : Z) : PingProc :=
  mkPingProc (id p) n (dst p) (rttLimit p) (interval p).

(** [newPingProc]; [r1] and [r2] are the two draws of [rand.Intn(1 << 16)]. *)
Definition newPingProc (dstIP : IPAddr) (r1 r2 : Z) : PingProc :=
  mkPingProc r1 r2 dstIP (2000 * Millisecond) (1300 * Millisecond).

(** [sendEcho]: the session is left as it is. *)
Definition sendEcho (p : PingProc) (now : Time) (werr : option string)
    : list Effect * option string :=
  let msgType := ipv4_ICMPTypeEcho in
  let t := timeToBytes now in
  let m := mkMessage msgType 0 (Echo (id p) (seqnum p) t) in
  match werr with
  | Some err => ([WriteTo m (dst p)], Some ("Send echo error: " ++ err)%string)
  | None => ([WriteTo m (dst p)], None)
  end.

(** A receive buffer, kept as what [icmp.ParseMessage(protoNum, _)] makes
    of it. *)
Record Buffer : Type := mkBuffer { parsed : ParseResult }.

(** [icmp.ParseMessage(protoNum, bytes)]; a [nil] slice is too short to
    hold a message. *)
Definition ParseMessage (bytes : option Buffer) : ParseResult :=
  match bytes with
  | None => inl "message too short"
  | Some b => parsed b
  end.

Record recvResult : Type := mkRecvResult {
  bytes : option Buffer;   (* [nil] or the buffer read *)
  err : option string
}.

Inductive ReadOutcome : Type :=
| ReadErr (e : string)
| ReadOk (peer : string) (buf : Buffer).

(** What the receiver does, in order. *)
Inductive RecvEvent : Type :=
| LogReflection (peer : string)    (* log.Printf("got reflection from %v", peer) *)
| LogWantEchoReply (m : Message)   (* log.Printf("got %+v; want echo reply", msg) *)
| ChanSend (r : recvResult).       (* ch <- r *)

Inductive RecvStatus : Type :=
| InRead
| RecvReturned.

(** [recvEchoReply], for the successive outcomes of [ReadFrom]. *)
Fixpoint recvEchoReply (reads : list ReadOutcome)
    : list RecvEvent * RecvStatus :=
  match reads with
  | [] => ([], InRead)
  | ReadErr e :: _ =>
      ([ChanSend (mkRecvResult None (Some ("Send echo error: " ++ e)%string))],
       RecvReturned)
  | ReadOk peer buf :: reads' =>
      match ParseMessage (Some buf) with
      | inl e =>
          ([ChanSend (mkRecvResult None (Some ("Send echo error: " ++ e)%string))],
           RecvReturned)
      | inr m =>
          let (out, st) := recvEchoReply reads' in
          if ICMPType_eqb (Type_ m) ipv4_ICMPTypeEchoReply then
            (LogReflection peer :: ChanSend (mkRecvResult (Some buf) None) :: out,
             st)
          else
            (LogWantEchoReply m
               :: ChanSend
                    (mkRecvResult None
                       (Some "Send echo error: not echo reply message type"))
               :: out,
             st)
      end
  end.

(** The values the receiver sends on the channel. *)
Fixpoint forwarded (evs : list RecvEvent) : list recvResult :=
  match evs with
  | [] => []
  | ChanSend r :: evs' => r :: forwarded evs'
  | _ :: evs' => forwarded evs'
  end.

Section Printing.

(** The verb [%v] of [fmt] on a [time.Duration]. *)
Variable fmt_v : Z -> string.

(** [handleRecv]; [now] is the clock read by [time.Since]. *)
Definition handleRecv (p : PingProc) (bytes : option Buffer) (now : Time)
    : result (list Effect) :=
  match ParseMessage bytes with
  | inl e => Ok [Printf ("Handle receive error: " ++ e)%string]
  | inr m =>
      match Body m with
      | Echo bID bSeq bData =>
          rtt <- (if (bID =? id p) && (bSeq =? seqnum p) then
                    t <- bytesToTime bData ;; Ok (time_Since now t)
                  else Ok 0) ;;
          Ok [Printf ("64 bytes from " ++ IP (dst p) ++ ": time=" ++ fmt_v rtt
                      ++ nl)%string]
      | OtherBody => Ok []
      end
  end.

Record Iteration : Type := mkIteration {
  it_proc : PingProc;
  it_chan : list recvResult;
  it_trace : list Effect;
  it_exit : BodyExit
}.

(** One iteration of the [for] of [pingLoop]. *)
Definition loop_body (p : PingProc) (ch : list recvResult) (c : CycleInput)
    : Iteration :=
  let selected :=
    match sel c, ch with
    | PingCh, res :: ch' =>
        (p, ch',
         es <- handleRecv p (bytes res) (now_recv c) ;;
         Ok (es ++ [TimerStop; Sleep (interval p)])%list)
    | _, _ =>
        let p := set_seqnum p (wrap64 (seqnum p + 1)) in
        (p, ch, Ok [Printf ("unreachable: " ++ IP (dst p) ++ "." ++ nl)%string])
    end in
  match selected with
  | (p', ch', Panic) => mkIteration p' ch' [] BodyPanic
  | (p', ch', Ok es) =>
      match sendEcho p' (now_send c) (write_err c) with
      | (ws, Some e) =>
          mkIteration p' ch' (es ++ [TimerReset (rttLimit p')] ++ ws)%list Break
      | (ws, None) =>
          mkIteration p' ch' (es ++ [TimerReset (rttLimit p')] ++ ws)%list Continue
      end
  end.

Record Run : Type := mkRun {
  proc : PingProc;
  chan : list recvResult;
  trace : list Effect;
  status : Status
}.

(** The [for] loop; after a [break] come [timer.Stop()] and [return nil]. *)
Fixpoint for_loop (p : PingProc) (ch : list recvResult) (cs : list CycleInput)
    : Run :=
  match cs with
  | [] => mkRun p ch [] InSelect
  | c :: cs' =>
      let it := loop_body p ch c in
      match it_exit it with
      | Continue =>
          let r := for_loop (it_proc it) (it_chan it) cs' in
          mkRun (proc r) (chan r) (it_trace it ++ trace r)%list (status r)
      | Break =>
          mkRun (it_proc it) (it_chan it) (it_trace it ++ [TimerStop])%list
            (Returned None)
      | BodyPanic =>
          mkRun (it_proc it) (it_chan it) (it_trace it) Panicked
      end
  end.

(** [pingLoop]: the error of the first [sendEcho] is dropped. *)
Definition pingLoop (p : PingProc) (now0 : Time) (werr0 : option string)
    (ch : list recvResult) (cs : list CycleInput) : Run :=
  let '(ws, _) := sendEcho p now0 werr0 in
  let r := for_loop p ch cs in
  mkRun (proc r) (chan r)
    ([GoRecvEchoReply] ++ ws ++ [NewTimer (rttLimit p)] ++ trace r)%list
    (status r).

(** The session: the loop fed by the receiver task. *)
Definition session (p : PingProc) (now0 : Time) (werr0 : option string)
    (reads : list ReadOutcome) (cs : list CycleInput) : Run :=
  pingLoop p now0 werr0 (forwarded (fst (recvEchoReply reads))) cs.

End Printing.

(** The end of [main]. *)
Definition main_end (st : Status) : list Effect * option Z :=
  match st with
  | Returned (Some e) => ([Printf (e ++ nl)%string], Some 1)
  | Returned None => ([], Some 0)
  | Panicked => ([], Some 2)
  | InSelect => ([], None)
  end.

End Main.

(** ** Reading runs *)

(** The [select] takes the receive case: it is preferred and the receiver
    has a value to hand over. *)
Definition took_channel {R} (c : CycleInput) (ch : list R) : bool :=
  match sel c, ch with
  | PingCh, _ :: _ => true
  | _, _ => false
  end.


(** How many of the iterations end by the timer. *)
Fixpoint timeouts {R} (ch : list R) (cs : list CycleInput) : nat :=
  match cs with
  | [] => O
  | c :: cs' =>
      if took_channel c ch then timeouts (tl ch) cs' else S (timeouts ch cs')
  end.

(** The sequence fields of the echo requests written, in order. *)
Fixpoint sent_seqs (tr : list Effect) : list Z :=
  match tr with
  | [] => []
  | WriteTo (mkMessage _ _ (Echo _ s _)) _ :: tr' => s :: sent_seqs tr'
  | _ :: tr' => sent_seqs tr'
  end.

Definition is_Printf (e : Effect) : bool :=
  match e with
  | Printf _ => true
  | _ => false
  end.

Definition is_echo_reply (t : ICMPType) : bool :=
  ICMPType_eqb t ipv4_ICMPTypeEchoReply || ICMPType_eqb t ipv6_ICMPTypeEchoReply.

(** The success line in the words of the specification:
    [64 bytes from <ip>: icmp_seq=<n> ttl=<hopMetric> time=<rtt_ms>ms]. *)
Definition spec_success_line (ip : string) (n hopMetric rtt_ms : Z) : string :=
  ("64 bytes from " ++ ip ++ ": icmp_seq=" ++ fmt_d n ++ " ttl="
     ++ fmt_d hopMetric ++ " time=" ++ fmt_d rtt_ms ++ "ms")%string.

(** The shape of the trace of one iteration. When the receive case was
    taken ([took]): what the handler printed, then the timer is stopped, the
    loop sleeps, the timer is armed again and a request is written. When the
    timer won: one line, the timer is armed again and a request is written.
    After the request come only printed lines. *)
Definition cycle_shape (took : bool) (interval rttLimit : Z) (dst : IPAddr)
    (tr : list Effect) : Prop :=
  exists m tail,
    forallb is_Printf tail = true
    /\ if took then
         exists prints,
           forallb is_Printf prints = true
           /\ tr = (prints
                    ++ [TimerStop; Sleep interval; TimerReset rttLimit;
                        WriteTo m dst] ++ tail)%list
       else
         exists line,
           tr = ([Printf line; TimerReset rttLimit; WriteTo m dst] ++ tail)%list.

(** ** Sample sessions *)

Module Sample.

Definition ip : IPAddr := mkIPAddr "1.2.3.4" "".

(** The clock when a request is sent, 20 ms later when its reply is handled,
    and one second later when the next request is sent. *)
Definition t_sent : Time := mkTime 1700000000 0.
Definition t_recv : Time := mkTime 1700000000 20000000.
Definition t_next : Time := mkTime 1700000001 20000000.

(** Sessions with identifier 5 whose outstanding request has sequence 11. *)
Definition dual_p : Dual.PingProc :=
  Dual.mkPingProc 5 11 ip false 100 (2 * Second) Second.
Definition main_p : Main.PingProc :=
  Main.mkPingProc 5 11 ip (2000 * Millisecond) (1300 * Millisecond).

Definition echo_reply (bID bSeq : Z) : Message :=
  mkMessage ipv4_ICMPTypeEchoReply 0 (Echo bID bSeq (timeToBytes t_sent)).

(** A reply to the outstanding request and a reply to the one before it,
    both received with TTL 57. *)
Definition dual_reply : Dual.recvResult :=
  Dual.mkRecvResult (Some (echo_reply 5 11)) 57 None.
Definition dual_stale : Dual.recvResult :=
  Dual.mkRecvResult (Some (echo_reply 5 10)) 57 None.
Definition main_reply : Main.recvResult :=
  Main.mkRecvResult (Some (Main.mkBuffer (inr (echo_reply 5 11)))) None.

Definition c_recv : CycleInput := mkCycle PingCh t_recv t_next None.
Definition c_timer : CycleInput := mkCycle TimerC t_recv t_next None.
Definition c_send_fails : CycleInput :=
  mkCycle TimerC t_recv t_next (Some "sendto: network is unreachable").

End Sample.

(** ** Start of the process *)

(** [strings.Index(s, substr)]: the index of the first occurrence, or -1. *)
Definition strings_Index (s substr : string) : Z :=
  match String.index 0 substr s with
  | Some n => Z.of_nat n
  | None => -1
  end.

(** What the process does before [pingLoop]. *)
Inductive SetupEvent : Type :=
| Stdout (s : string)                      (* fmt.Printf *)
| Stderr (s : string)                      (* fmt.Fprintf(os.Stderr, _) *)
| PrintDefaults                            (* flag.PrintDefaults() *)
| ResolveIPAddr (network host : string)    (* net.ResolveIPAddr *)
| ListenPacket (network address : string)  (* icmp.ListenPacket *)
| SetControlMessageTTL                     (* SetControlMessage(ipv4.FlagTTL, true) *)
| SetControlMessageHopLimit                (* SetControlMessage(ipv6.FlagHopLimit, true) *)
| SetTTL (n : Z)
| SetHopLimit (n : Z)
| Exit (code : Z).                         (* os.Exit *)

(** A step of the start that may end the process. *)
Definition Setup (A : Type) : Type := (list SetupEvent * option A)%type.

Definition setup_bind {A B} (m : Setup A) (k : A -> Setup B) : Setup B :=
  match m with
  | (evs, None) => (evs, None)
  | (evs, Some a) => let (evs', r) := k a in ((evs ++ evs')%list, r)
  end.

(** The outside of the start: the program name, the positional arguments
    [flag.Parse()] leaves when it returns, what [net.ResolveIPAddr] returns
    and the error of [icmp.ListenPacket], if any, and the two draws of
    [rand.Intn]. *)
Record World : Type := mkWorld {
  arg0 : string;
  args : list string;
  resolve : string -> string -> (string + IPAddr)%type;
  listen : string -> string -> option string;
  rand1 : Z;
  rand2 : Z
}.

(** How [flag.Parse()] ends. It rejects the command line (a flag that is
    not defined, a value that does not parse) and ends the process with
    status 2; or it is asked for help ([-h], [-help]) and ends the process
    with status 0; both after writing [out] on the standard error. Or it
    returns, the flags holding [flags]. *)
Inductive FlagParse (F : Type) : Type :=
| FlagError (out : string)
| FlagHelp (out : string)
| FlagsParsed (flags : F).
Arguments FlagError {F} out.
Arguments FlagHelp {F} out.
Arguments FlagsParsed {F} flags.

Module DualSetup.

(** [parseArgs]; what [flag.Parse()] returns with are the values of the
    flags [-6] and [-t]/[-ttl]. Returns [host], [isIPv6], [ttl]. *)
Definition parseArgs (w : World) (fp : FlagParse (bool * Z))
    : Setup (string * bool * Z) :=
  match fp with
  | FlagError out => ([Stderr out; Exit 2], None)
  | FlagHelp out => ([Stderr out; Exit 0], None)
  | FlagsParsed (flag6, flagTTL) =>
      let host := nth 0 (args w) "" in
      if (List.length (args w) =? 0)%nat then
        ([Stderr ("Usage : " ++ arg0 w ++ ":" ++ nl)%string; PrintDefaults;
          Exit 1],
         None)
      else ([], Some (host, flag6, flagTTL))
  end.

Definition printSetup (host : string) (isIPv6 : bool) (ttl : Z)
    : list SetupEvent :=
  let ipVersionStr := if isIPv6 then "IPv6" else "IPv4" in
  [Stdout ("PING " ++ host ++ ", IP version: " ++ ipVersionStr ++ ", ttl: "
           ++ fmt_d ttl ++ "." ++ nl)%string].

Definition getConnection (w : World) (p : Dual.PingProc)
    (network address : string) : Setup unit :=
  match listen w network address with
  | Some e =>
      ([ListenPacket network address;
        Stdout ("Opening connection error: " ++ e ++ "." ++ nl)%string; Exit 1],
       None)
  | None =>
      if negb (Dual.isIPv6 p) then
        ([ListenPacket network address; SetControlMessageTTL;
          SetTTL (Dual.ttl p)], Some tt)
      else
        ([ListenPacket network address; SetControlMessageHopLimit;
          SetHopLimit (Dual.ttl p)], Some tt)
  end.

(** [main] up to the call of [pingLoop]: the session it starts the loop
    with, unless the process has ended. *)
Definition main (w : World) (fp : FlagParse (bool * Z))
    : Setup Dual.PingProc :=
  setup_bind (parseArgs w fp) (fun '(host, isIPv6, ttl) =>
  let isIPv6 := if negb (strings_Index host ":" =? -1) then true else isIPv6 in
  setup_bind (printSetup host isIPv6 ttl, Some tt) (fun _ =>
  let network := if isIPv6 then "ip6:ipv6-icmp" else "ip4:icmp" in
  setup_bind
    (match resolve w network host with
     | inl e =>
         ([ResolveIPAddr network host;
           Stdout ("Address resolving error: " ++ e ++ "." ++ nl)%string; Exit 1],
          None)
     | inr res => ([ResolveIPAddr network host], Some res)
     end) (fun res =>
  let p := Dual.newPingProc (mkIPAddr (IP res) (Zone res)) isIPv6 ttl
             (rand1 w) (rand2 w) in
  setup_bind (getConnection w p network "") (fun _ => ([], Some p))))).

End DualSetup.

Module MainSetup.

(** [parseArgs]; what [flag.Parse()] returns with are the values of the
    flags [-ip] and [-ttl]. Returns [host], [ipVersion], [ttl]. *)
Definition parseArgs (w : World) (fp : FlagParse (string * Z))
    : Setup (string * string * Z) :=
  match fp with
  | FlagError out => ([Stderr out; Exit 2], None)
  | FlagHelp out => ([Stderr out; Exit 0], None)
  | FlagsParsed (flagIP, flagTTL) =>
      let ipVersion := flagIP in
      let ttl := flagTTL in
      let host := nth 0 (args w) "" in
      if (List.length (args w) =? 0)%nat then
        ([Stderr ("Usage : " ++ arg0 w ++ ":" ++ nl)%string; PrintDefaults;
          Exit 1],
         None)
      else
        ([Stdout ("Hostname or IP address: " ++ host ++ ", IP version: "
                  ++ ipVersion ++ ", ttl: " ++ fmt_d ttl ++ "." ++ nl)%string],
         Some (host, ipVersion, ttl))
  end.

Definition getConnection (w : World) (network address : string) : Setup unit :=
  match listen w network address with
  | Some e =>
      ([ListenPacket network address;
        Stdout ("Opening connection error: " ++ e ++ "." ++ nl)%string; Exit 1],
       None)
  | None => ([ListenPacket network address], Some tt)
  end.

(** [main] up to the call of [pingLoop]. *)
Definition main (w : World) (fp : FlagParse (string * Z))
    : Setup Main.PingProc :=
  let network := "ip4:icmp" in
  setup_bind (parseArgs w fp) (fun '(host, ipVersion, ttl) =>
  setup_bind
    (match resolve w network host with
     | inl e =>
         ([ResolveIPAddr network host;
           Stdout ("Address resolving error: " ++ e ++ "." ++ nl)%string; Exit 1],
          None)
     | inr res => ([ResolveIPAddr network host], Some res)
     end) (fun res =>
  let p := Main.newPingProc (mkIPAddr (IP res) (Zone res)) (rand1 w) (rand2 w) in
  setup_bind (getConnection w network "") (fun _ => ([], Some p)))).

End MainSetup.

(** ** Reading runs and values *)

(** The number a list of bytes denotes, most significant byte first. *)
Definition be_value (bs : list Z) : Z :=
  fold_left (fun acc b => acc * 256 + b) bs 0.

Definition is_byte (b : Z) : Prop := 0 <= b < 256.

Definition is_WriteTo (e : Effect) : bool :=
  match e with
  | WriteTo _ _ => true
  | _ => false
  end.

(** The number of requests written in a trace. *)
Definition writes (tr : list Effect) : nat :=
  List.length (filter is_WriteTo tr).

Definition is_time_exceeded (t : ICMPType) : bool :=
  ICMPType_eqb t ipv4_ICMPTypeTimeExceeded
  || ICMPType_eqb t ipv6_ICMPTypeTimeExceeded.

(** A write of the loop fails. *)
Definition write_fails (c : CycleInput) : bool :=
  match write_err c with
  | Some _ => true
  | None => false
  end.

(** The elements of a list up to the first that satisfies [stop], and that
    one. *)
Fixpoint take_until {A} (stop : A -> bool) (l : list A) : list A :=
  match l with
  | [] => []
  | a :: l' => if stop a then [a] else a :: take_until stop l'
  end.

(** Every echo body a datagram is parsed to holds the eight bytes of a
    timestamp at least. *)
Definition Dual_read_ok (rd : Dual.ReadOutcome) : Prop :=
  match rd with
  | Dual.ReadErr _ => True
  | Dual.ReadOk _ parse =>
      forall proto m bID bSeq bData,
        parse proto = inr m -> Body m = Echo bID bSeq bData ->
        (8 <= List.length bData)%nat
  end.

Definition Main_read_ok (rd : Main.ReadOutcome) : Prop :=
  match rd with
  | Main.ReadErr _ => True
  | Main.ReadOk _ buf =>
      forall m bID bSeq bData,
        Main.parsed buf = inr m -> Body m = Echo bID bSeq bData ->
        (8 <= List.length bData)%nat
  end.

(** The read, or the parsing of what was read, fails for the receiver of
    the session. *)
Definition Dual_read_fails (p : Dual.PingProc) (rd : Dual.ReadOutcome) : bool :=
  match rd with
  | Dual.ReadErr _ => true
  | Dual.ReadOk _ parse =>
      match parse (if Dual.isIPv6 p then 58 else 1) with
      | inl _ => true
      | inr _ => false
      end
  end.

Definition Main_read_fails (rd : Main.ReadOutcome) : bool :=
  match rd with
  | Main.ReadErr _ => true
  | Main.ReadOk _ buf =>
      match Main.parsed buf with
      | inl _ => true
      | inr _ => false
      end
  end.

(** What every effect of a run of a session has: requests go to the
    destination of the session, are echo requests of its family with code 0,
    its identifier and eight bytes of payload; the timer is armed for
    [rttLimit] and the loop sleeps for [interval]. *)
Definition Dual_effect_ok (p : Dual.PingProc) (e : Effect) : Prop :=
  match e with
  | WriteTo m d =>
      d = Dual.dst p /\ Code m = 0
      /\ Type_ m = (if Dual.isIPv6 p then ipv6_ICMPTypeEchoRequest
                    else ipv4_ICMPTypeEcho)
      /\ exists sq data,
           Body m = Echo (Dual.id p) sq data /\ List.length data = 8%nat
  | NewTimer d | TimerReset d => d = Dual.rttLimit p
  | Sleep d => d = Dual.interval p
  | _ => True
  end.

Definition Main_effect_ok (p : Main.PingProc) (e : Effect) : Prop :=
  match e with
  | WriteTo m d =>
      d = Main.dst p /\ Code m = 0 /\ Type_ m = ipv4_ICMPTypeEcho
      /\ exists sq data,
           Body m = Echo (Main.id p) sq data /\ List.length data = 8%nat
  | NewTimer d | TimerReset d => d = Main.rttLimit p
  | Sleep d => d = Main.interval p
  | _ => True
  end.

(** A value of the channel that [handleMsg] handles without a panic: an
    error, or a message whose echo body, if it has one, holds eight bytes at
    least. *)
Definition Dual_result_ok (r : Dual.recvResult) : Prop :=
  match Dual.err r, Dual.msg r with
  | Some _, _ => True
  | None, None => False
  | None, Some m =>
      match Body m with
      | Echo _ _ bData => (8 <= List.length bData)%nat
      | OtherBody => True
      end
  end.

Definition Main_result_ok (r : Main.recvResult) : Prop :=
  forall m bID bSeq bData,
    Main.ParseMessage (Main.bytes r) = inr m -> Body m = Echo bID bSeq bData ->
    (8 <= List.length bData)%nat.

(** No event of the list ends the process. *)
Definition no_Exit (evs : list SetupEvent) : Prop :=
  forall n, ~ In (Exit n) evs.

(** An event of a start that works on IPv4 only and sets nothing on the
    connection. *)
Definition ipv4_event (e : SetupEvent) : Prop :=
  match e with
  | ResolveIPAddr network _ | ListenPacket network _ => network = "ip4:icmp"
  | SetControlMessageTTL | SetControlMessageHopLimit
  | SetTTL _ | SetHopLimit _ => False
  | _ => True
  end.

(** The line the loop prints when the timer wins. *)
Definition unreachable_line (ip : IPAddr) : string :=
  ("unreachable: " ++ IP ip ++ "." ++ nl)%string.

(** How often a line is printed in a trace. *)
Definition count_line (l : string) (tr : list Effect) : nat :=
  List.length
    (filter (fun e => match e with
                      | Printf s => String.eqb s l
                      | _ => false
                      end) tr).

(** The effect prints no line that starts with the letter u. *)
Definition starts_not_u (e : Effect) : bool :=
  match e with
  | Printf (String c _) => negb (Ascii.eqb c "u")
  | _ => true
  end.

(** * Properties *)

(** ** Arithmetic of [int64] *)

Lemma wrap64_range (x : Z) : int64_range (wrap64 x).
Proof.
  unfold int64_range, wrap64.
  pose proof (Z.mod_pos_bound (x + 2 ^ 63) (2 ^ 64) ltac:(lia)). lia.
Qed.

Lemma wrap64_id (x : Z) : int64_range x -> wrap64 x = x.
Proof.
  unfold int64_range, wrap64. intros H.
  rewrite Z.mod_small by lia. lia.
Qed.

Lemma wrap64_add_l (a b : Z) : wrap64 (wrap64 a + b) = wrap64 (a + b).
Proof.
  unfold wrap64. f_equal.
  replace ((a + 2 ^ 63) mod 2 ^ 64 - 2 ^ 63 + b + 2 ^ 63)
    with ((a + 2 ^ 63) mod 2 ^ 64 + b) by lia.
  rewrite Zplus_mod_idemp_l. f_equal. lia.
Qed.

Lemma wrap64_add_r (a b : Z) : wrap64 (a + wrap64 b) = wrap64 (a + b).
Proof. rewrite Z.add_comm, wrap64_add_l. f_equal. lia. Qed.

Lemma wrap64_mod (x : Z) : wrap64 (x mod 2 ^ 64) = wrap64 x.
Proof.
  unfold wrap64. f_equal.
  rewrite Zplus_mod_idemp_l. reflexivity.
Qed.

(** ** The codec *)

Lemma timeToBytes_unfold (t : Time) :
  timeToBytes t =
  map (nth_byte (UnixNano t)) [0; 1; 2; 3; 4; 5; 6; 7].
Proof. reflexivity. Qed.

Lemma nth_byte_div (n i : Z) :
  0 <= i <= 7 -> nth_byte n i = (n / 2 ^ ((7 - i) * 8)) mod 256.
Proof.
  intros Hi. unfold nth_byte, byte.
  rewrite Z.shiftr_div_pow2 by lia.
  rewrite Z.land_comm.
  change 255 with (Z.ones 8).
  rewrite Z.land_ones by lia.
  change (2 ^ 8) with 256.
  apply Z.mod_mod. lia.
Qed.

Lemma nth_byte_range (n i : Z) : 0 <= nth_byte n i < 256.
Proof. unfold nth_byte, byte. apply Z.mod_pos_bound. lia. Qed.

Lemma bytesToTime_unfold (b0 b1 b2 b3 b4 b5 b6 b7 : Z) (rest : list Z) :
  bytesToTime (b0 :: b1 :: b2 :: b3 :: b4 :: b5 :: b6 :: b7 :: rest) =
  let nsecs :=
    wrap64 (wrap64 (wrap64 (wrap64 (wrap64 (wrap64 (wrap64 (wrap64 (0
      + wrap64 (Z.shiftl b0 56)) + wrap64 (Z.shiftl b1 48))
      + wrap64 (Z.shiftl b2 40)) + wrap64 (Z.shiftl b3 32))
      + wrap64 (Z.shiftl b4 24)) + wrap64 (Z.shiftl b5 16))
      + wrap64 (Z.shiftl b6 8)) + wrap64 (Z.shiftl b7 0)) in
  Ok (time_Unix (Z.quot nsecs 1000000000) (Z.rem nsecs 1000000000)).
Proof. reflexivity. Qed.

Lemma decode_sum (b0 b1 b2 b3 b4 b5 b6 b7 : Z) :
  wrap64 (wrap64 (wrap64 (wrap64 (wrap64 (wrap64 (wrap64 (wrap64 (0
      + wrap64 (Z.shiftl b0 56)) + wrap64 (Z.shiftl b1 48))
      + wrap64 (Z.shiftl b2 40)) + wrap64 (Z.shiftl b3 32))
      + wrap64 (Z.shiftl b4 24)) + wrap64 (Z.shiftl b5 16))
      + wrap64 (Z.shiftl b6 8)) + wrap64 (Z.shiftl b7 0)) =
  wrap64 (b0 * 2 ^ 56 + b1 * 2 ^ 48 + b2 * 2 ^ 40 + b3 * 2 ^ 32
          + b4 * 2 ^ 24 + b5 * 2 ^ 16 + b6 * 2 ^ 8 + b7).
Proof.
  repeat (rewrite <- ?Z.add_assoc;
          (rewrite wrap64_add_r || rewrite wrap64_add_l)).
  rewrite !Z.shiftl_mul_pow2 by lia.
  f_equal. lia.
Qed.

Lemma bytes_sum (n : Z) :
  nth_byte n 0 * 2 ^ 56 + nth_byte n 1 * 2 ^ 48 + nth_byte n 2 * 2 ^ 40
  + nth_byte n 3 * 2 ^ 32 + nth_byte n 4 * 2 ^ 24 + nth_byte n 5 * 2 ^ 16
  + nth_byte n 6 * 2 ^ 8 + nth_byte n 7 = n mod 2 ^ 64.
Proof.
  rewrite !nth_byte_div by lia.
  change ((7 - 0) * 8) with 56. change ((7 - 1) * 8) with 48.
  change ((7 - 2) * 8) with 40. change ((7 - 3) * 8) with 32.
  change ((7 - 4) * 8) with 24. change ((7 - 5) * 8) with 16.
  change ((7 - 6) * 8) with 8. change ((7 - 7) * 8) with 0.
  assert (Hstep : forall k k', 0 <= k -> k' = k + 8 ->
            n / 2 ^ k = 256 * (n / 2 ^ k') + (n / 2 ^ k) mod 256).
  { intros k k' Hk ->.
    replace (n / 2 ^ (k + 8)) with (n / 2 ^ k / 256).
    - apply Z.div_mod. lia.
    - rewrite Z.pow_add_r by lia. rewrite Z.div_div by lia. reflexivity. }
  pose proof (Hstep 0 8 ltac:(lia) eq_refl) as H0.
  pose proof (Hstep 8 16 ltac:(lia) eq_refl) as H8.
  pose proof (Hstep 16 24 ltac:(lia) eq_refl) as H16.
  pose proof (Hstep 24 32 ltac:(lia) eq_refl) as H24.
  pose proof (Hstep 32 40 ltac:(lia) eq_refl) as H32.
  pose proof (Hstep 40 48 ltac:(lia) eq_refl) as H40.
  pose proof (Hstep 48 56 ltac:(lia) eq_refl) as H48.
  pose proof (Hstep 56 64 ltac:(lia) eq_refl) as H56.
  clear Hstep.
  rewrite Z.pow_0_r, Z.div_1_r in *.
  rewrite (Z.mod_eq n (2 ^ 64)) by lia.
  generalize dependent (n / 2 ^ 64). generalize dependent (n / 2 ^ 56).
  generalize dependent (n / 2 ^ 48). generalize dependent (n / 2 ^ 40).
  generalize dependent (n / 2 ^ 32). generalize dependent (n / 2 ^ 24).
  generalize dependent (n / 2 ^ 16). generalize dependent (n / 2 ^ 8).
  intros q8 H0 q16 H8 q24 H16 q32 H24 q40 H32 q48 H40 q56 H48 q64 H56.
  lia.
Qed.

(** Decoding the encoding of [t] rebuilds the instant from the [int64]
    count [t.UnixNano()]. *)
Lemma bytesToTime_timeToBytes_UnixNano (t : Time) :
  bytesToTime (timeToBytes t) =
  Ok (time_Unix (Z.quot (UnixNano t) 1000000000)
                (Z.rem (UnixNano t) 1000000000)).
Proof.
  rewrite timeToBytes_unfold. cbn [map].
  rewrite bytesToTime_unfold. cbv zeta.
  rewrite decode_sum, bytes_sum, wrap64_mod.
  rewrite (wrap64_id (UnixNano t)) by apply wrap64_range.
  reflexivity.
Qed.

Lemma time_Unix_split (t : Time) :
  Time_wf t ->
  time_Unix (Z.quot (nanos t) 1000000000) (Z.rem (nanos t) 1000000000) = t.
Proof.
  destruct t as [s ns]. unfold Time_wf, nanos. cbn [unix_sec unix_nsec].
  intros Hwf. set (n := s * 1000000000 + ns).
  pose proof (Z.quot_rem' n 1000000000) as Hqr.
  assert (Hr : (0 <= n -> 0 <= Z.rem n 1000000000 < 1000000000)
               /\ (n < 0 -> - 1000000000 < Z.rem n 1000000000 <= 0)).
  { split; intros Hn.
    - apply Z.rem_bound_pos; lia.
    - pose proof (Z.rem_bound_pos_neg n 1000000000 ltac:(lia) ltac:(lia)).
      lia. }
  destruct Hr as [Hpos Hneg].
  assert (Hcase : 0 <= n \/ n < 0) by lia.
  unfold time_Unix.
  destruct (Z.rem n 1000000000 <? 0) eqn:Hlt; cbn [orb].
  - apply Z.ltb_lt in Hlt.
    assert (Hq0 : Z.quot (Z.rem n 1000000000) 1000000000 = 0).
    { apply Z.quot_small_iff; [lia|].
      destruct Hcase as [Hc|Hc]; [apply Hpos in Hc|apply Hneg in Hc]; lia. }
    rewrite Hq0.
    replace (Z.rem n 1000000000 - 0 * 1000000000 <? 0) with true
      by (symmetry; apply Z.ltb_lt; lia).
    destruct Hcase as [Hc|Hc]; [apply Hpos in Hc|apply Hneg in Hc];
      f_equal; subst n; lia.
  - apply Z.ltb_ge in Hlt.
    replace (1000000000 <=? Z.rem n 1000000000) with false.
    + destruct Hcase as [Hc|Hc]; [apply Hpos in Hc|apply Hneg in Hc];
        f_equal; subst n; lia.
    + symmetry. apply Z.leb_gt.
      destruct Hcase as [Hc|Hc]; [apply Hpos in Hc|apply Hneg in Hc]; lia.
Qed.

Lemma bytesToTime_short (bs : list Z) :
  (List.length bs < 8)%nat -> bytesToTime bs = Panic.
Proof.
  intros H.
  do 8 (destruct bs as [|? bs]; [reflexivity|]).
  cbn [List.length] in H. lia.
Qed.

Lemma bytesToTime_ok (bs : list Z) :
  (8 <= List.length bs)%nat -> exists t, bytesToTime bs = Ok t.
Proof.
  intros Hl.
  do 8 (destruct bs as [|? bs]; [cbn [List.length] in Hl; lia|]).
  rewrite bytesToTime_unfold. cbv zeta. eexists. reflexivity.
Qed.

(** C5, as the code has it: for every instant whose count of nanoseconds
    since the epoch fits the signed 64-bit integer that [UnixNano] returns,
    decoding the eight bytes of the encoder gives the instant back. *)
Theorem timestamp_round_trip_int64 (t : Time) :
  Time_wf t -> int64_range (nanos t) ->
  bytesToTime (timeToBytes t) = Ok t.
Proof.
  intros Hwf Hr.
  rewrite bytesToTime_timeToBytes_UnixNano.
  unfold UnixNano. rewrite wrap64_id by exact Hr.
  rewrite time_Unix_split by exact Hwf. reflexivity.
Qed.

Lemma timestamp_round_trip_int64_witness :
  Time_wf (mkTime 1700000000 123456789)
  /\ int64_range (nanos (mkTime 1700000000 123456789))
  /\ bytesToTime (timeToBytes (mkTime 1700000000 123456789))
     = Ok (mkTime 1700000000 123456789).
Proof.
  assert (Hwf : Time_wf (mkTime 1700000000 123456789))
    by (unfold Time_wf; simpl; lia).
  assert (Hr : int64_range (nanos (mkTime 1700000000 123456789)))
    by (unfold int64_range, nanos; simpl; lia).
  split; [exact Hwf|]. split; [exact Hr|].
  exact (timestamp_round_trip_int64 _ Hwf Hr).
Defined.

(** C5, as stated, fails: the instant 2^63 ns after the epoch has a count
    that fits 64 unsigned bits, and it is decoded as the instant 2^63 ns
    before the epoch. *)
Lemma timestamp_round_trip_uint64_fails :
  Time_wf (mkTime 9223372036 854775808)
  /\ 0 <= nanos (mkTime 9223372036 854775808) < 2 ^ 64
  /\ bytesToTime (timeToBytes (mkTime 9223372036 854775808))
     = Ok (mkTime (-9223372037) 145224192)
  /\ bytesToTime (timeToBytes (mkTime 9223372036 854775808))
     <> Ok (mkTime 9223372036 854775808).
Proof.
  split; [unfold Time_wf; simpl; lia|].
  split; [unfold nanos; simpl; lia|].
  split; [vm_compute; reflexivity|].
  vm_compute. discriminate.
Qed.

(** C9: the encoder returns eight bytes for every instant, and the decoder
    panics exactly on the inputs of fewer than eight bytes. *)
Theorem codec_total (t : Time) (bs : list Z) :
  List.length (timeToBytes t) = 8%nat
  /\ Forall (fun b => 0 <= b < 256) (timeToBytes t)
  /\ match bytesToTime bs with
     | Ok _ => (8 <= List.length bs)%nat
     | Panic => (List.length bs < 8)%nat
     end.
Proof.
  split; [reflexivity|]. split.
  - rewrite timeToBytes_unfold. cbn [map].
    repeat constructor; apply nth_byte_range.
  - destruct (Nat.lt_ge_cases (List.length bs) 8) as [Hs|Hl].
    + rewrite bytesToTime_short by exact Hs. exact Hs.
    + do 8 (destruct bs as [|? bs]; [cbn [List.length] in Hl; lia|]).
      rewrite bytesToTime_unfold. cbv zeta. cbn [List.length]. lia.
Qed.

(** ** The control loop of the IPv4/IPv6 variant *)

Lemma Dual_handleMsg_prints p m hop now es :
  Dual.handleMsg p m hop now = Ok es -> forallb is_Printf es = true.
Proof.
  unfold Dual.handleMsg, Dual.handleEchoReply, Dual.handleTimeExceeded.
  destruct m as [m|]; [|discriminate].
  destruct (_ || _).
  - destruct (Body m) as [bID bSeq bData|]; cbn [bind].
    + destruct (_ && _); cbn [bind].
      * destruct (bytesToTime bData); cbn [bind]; [|discriminate].
        intros [= <-]. reflexivity.
      * intros [= <-]. reflexivity.
    + intros [= <-]. reflexivity.
  - destruct (_ || _); intros [= <-]; reflexivity.
Qed.

Lemma Dual_loop_body_shape p ch c :
  Dual.it_exit (Dual.loop_body p ch c) <> BodyPanic ->
  cycle_shape (took_channel c ch) (Dual.interval p) (Dual.rttLimit p)
    (Dual.dst p) (Dual.it_trace (Dual.loop_body p ch c)).
Proof.
  unfold Dual.loop_body, took_channel, cycle_shape, Dual.sendEcho.
  destruct (sel c), ch as [|res ch']; cbn [bind].
  1-3: destruct (write_err c); cbn; intros _;
       eexists; eexists; (split; [|eexists; reflexivity]); reflexivity.
  destruct (Dual.err res) as [e|] eqn:He.
  - cbn [bind].
    destruct (write_err c); cbn; intros _;
      eexists; eexists; (split; [|exists [Printf
        ("Error during message receiving: " ++ e ++ "." ++ nl)%string];
        split; reflexivity]); reflexivity.
  - destruct (Dual.handleMsg p (Dual.msg res) (Dual.res_ttl res) (now_recv c))
      as [es|] eqn:Hh; cbn [bind].
    + apply Dual_handleMsg_prints in Hh.
      destruct (write_err c); cbn [Dual.it_exit Dual.it_trace]; intros _;
        eexists; eexists;
        (split; [|exists es; split;
                  [exact Hh|rewrite <- app_assoc; reflexivity]]);
        reflexivity.
    + cbn. congruence.
Qed.

(** ** The control loop of the IPv4-only variant *)

Lemma Main_handleRecv_prints fmt_v p b now es :
  Main.handleRecv fmt_v p b now = Ok es -> forallb is_Printf es = true.
Proof.
  unfold Main.handleRecv.
  destruct (Main.ParseMessage b) as [e|m].
  - intros [= <-]. reflexivity.
  - destruct (Body m) as [bID bSeq bData|].
    + destruct (_ && _); cbn [bind].
      * destruct (bytesToTime bData); cbn [bind]; [|discriminate].
        intros [= <-]. reflexivity.
      * intros [= <-]. reflexivity.
    + intros [= <-]. reflexivity.
Qed.

Lemma Main_loop_body_shape fmt_v p ch c :
  Main.it_exit (Main.loop_body fmt_v p ch c) <> BodyPanic ->
  cycle_shape (took_channel c ch) (Main.interval p) (Main.rttLimit p)
    (Main.dst p) (Main.it_trace (Main.loop_body fmt_v p ch c)).
Proof.
  unfold Main.loop_body, took_channel, cycle_shape, Main.sendEcho.
  destruct (sel c), ch as [|res ch']; cbn [bind].
  1-3: destruct (write_err c); cbn; intros _;
       eexists; eexists; (split; [|eexists; reflexivity]); reflexivity.
  destruct (Main.handleRecv fmt_v p (Main.bytes res) (now_recv c))
    as [es|] eqn:Hh; cbn [bind].
  - apply Main_handleRecv_prints in Hh.
    destruct (write_err c); cbn [Main.it_exit Main.it_trace]; intros _;
      eexists; eexists;
      (split; [|exists es; split;
                [exact Hh|rewrite <- app_assoc; reflexivity]]);
      reflexivity.
  - cbn. congruence.
Qed.

(** ** How [pingLoop] ends *)

Lemma Dual_for_loop_returns_nil p ch cs e :
  Dual.status (Dual.for_loop p ch cs) <> Returned (Some e).
Proof.
  revert p ch. induction cs as [|c cs IH]; intros p ch; cbn [Dual.for_loop].
  - cbn. discriminate.
  - destruct (Dual.it_exit (Dual.loop_body p ch c)); cbn [Dual.status].
    + apply IH.
    + discriminate.
    + discriminate.
Qed.

Lemma Main_for_loop_returns_nil fmt_v p ch cs e :
  Main.status (Main.for_loop fmt_v p ch cs) <> Returned (Some e).
Proof.
  revert p ch. induction cs as [|c cs IH]; intros p ch; cbn [Main.for_loop].
  - cbn. discriminate.
  - destruct (Main.it_exit (Main.loop_body fmt_v p ch c)); cbn [Main.status].
    + apply IH.
    + discriminate.
    + discriminate.
Qed.

(** C2, on the code: in neither variant does a run of [pingLoop] return an
    error. When the write of the first request in the loop fails, the loop
    of the IPv4/IPv6 variant prints the error, breaks and returns [nil];
    [main] then prints nothing and the process ends with status 0. *)
Theorem send_failure_returns_nil :
  (forall p now0 werr0 ch cs e,
     Dual.status (Dual.pingLoop p now0 werr0 ch cs) <> Returned (Some e))
  /\ (forall fmt_v p now0 werr0 ch cs e,
        Main.status (Main.pingLoop fmt_v p now0 werr0 ch cs)
        <> Returned (Some e))
  /\ Dual.trace
       (Dual.pingLoop Sample.dual_p Sample.t_sent None [] [Sample.c_send_fails])
     = [GoRecvEchoReply;
        WriteTo (mkMessage ipv4_ICMPTypeEcho 0
                   (Echo 5 12 (timeToBytes Sample.t_sent))) Sample.ip;
        NewTimer (2 * Second);
        Printf ("unreachable: 1.2.3.4." ++ nl)%string;
        TimerReset (2 * Second);
        WriteTo (mkMessage ipv4_ICMPTypeEcho 0
                   (Echo 5 13 (timeToBytes Sample.t_next))) Sample.ip;
        Printf ("Send error: Send echo error: sendto: network is unreachable."
                ++ nl)%string;
        TimerStop]
  /\ Dual.status
       (Dual.pingLoop Sample.dual_p Sample.t_sent None [] [Sample.c_send_fails])
     = Returned None
  /\ Dual.main_end
       (Dual.status
          (Dual.pingLoop Sample.dual_p Sample.t_sent None []
             [Sample.c_send_fails]))
     = ([], Some 0).
Proof.
  split.
  - intros p now0 werr0 ch cs e. unfold Dual.pingLoop.
    destruct (Dual.sendEcho p now0 werr0) as [[p1 ws] r0].
    cbn [Dual.status]. apply Dual_for_loop_returns_nil.
  - split.
    { intros fmt_v p now0 werr0 ch cs e. unfold Main.pingLoop.
      destruct (Main.sendEcho p now0 werr0) as [ws r0].
      cbn [Main.status]. apply Main_for_loop_returns_nil. }
    split; [vm_compute; reflexivity|].
    split; vm_compute; reflexivity.
Qed.

(** ** The first request *)

Lemma Dual_sendEcho_effects p now werr :
  fst (Dual.sendEcho p now werr) = fst (Dual.sendEcho p now None).
Proof. unfold Dual.sendEcho. destruct werr; reflexivity. Qed.

(** C10: in both variants the run of [pingLoop] is the same whether the
    write of the first request failed or not; with no input yet the loop
    stands in its [select]; and when nothing is received and the next write
    fails too, the loop prints the unreachable line after the timeout and
    ends at that second write. *)
Theorem first_send_error_is_dropped :
  (forall p now0 werr0 ch cs,
     Dual.pingLoop p now0 werr0 ch cs = Dual.pingLoop p now0 None ch cs)
  /\ (forall p now0 werr0 ch,
        Dual.status (Dual.pingLoop p now0 werr0 ch []) = InSelect)
  /\ (forall p now0 werr0 c cs e,
        write_err c = Some e ->
        exists m1 m2,
          Dual.trace (Dual.pingLoop p now0 werr0 [] (c :: cs))
          = [GoRecvEchoReply; WriteTo m1 (Dual.dst p);
             NewTimer (Dual.rttLimit p);
             Printf ("unreachable: " ++ IP (Dual.dst p) ++ "." ++ nl)%string;
             TimerReset (Dual.rttLimit p); WriteTo m2 (Dual.dst p);
             Printf ("Send error: Send echo error: " ++ e ++ "." ++ nl)%string;
             TimerStop]
          /\ Dual.status (Dual.pingLoop p now0 werr0 [] (c :: cs))
             = Returned None)
  /\ (forall fmt_v p now0 werr0 ch cs,
        Main.pingLoop fmt_v p now0 werr0 ch cs
        = Main.pingLoop fmt_v p now0 None ch cs)
  /\ (forall fmt_v p now0 werr0 ch,
        Main.status (Main.pingLoop fmt_v p now0 werr0 ch []) = InSelect)
  /\ (forall fmt_v p now0 werr0 c cs e,
        write_err c = Some e ->
        exists m1 m2,
          Main.trace (Main.pingLoop fmt_v p now0 werr0 [] (c :: cs))
          = [GoRecvEchoReply; WriteTo m1 (Main.dst p);
             NewTimer (Main.rttLimit p);
             Printf ("unreachable: " ++ IP (Main.dst p) ++ "." ++ nl)%string;
             TimerReset (Main.rttLimit p); WriteTo m2 (Main.dst p);
             TimerStop]
          /\ Main.status (Main.pingLoop fmt_v p now0 werr0 [] (c :: cs))
             = Returned None).
Proof.
  split; [intros p now0 werr0 ch cs|].
  { unfold Dual.pingLoop.
    pose proof (Dual_sendEcho_effects p now0 werr0) as H.
    destruct (Dual.sendEcho p now0 werr0) as [[p1 ws] r0].
    destruct (Dual.sendEcho p now0 None) as [[p1' ws'] r0'].
    cbn [fst] in H. injection H as -> ->. reflexivity. }
  split; [intros p now0 werr0 ch|].
  { unfold Dual.pingLoop.
    destruct (Dual.sendEcho p now0 werr0) as [[p1 ws] r0]. reflexivity. }
  split; [intros p now0 werr0 c cs e He|].
  { unfold Dual.pingLoop, Dual.sendEcho.
    destruct werr0; cbn [Dual.for_loop]; unfold Dual.loop_body, Dual.sendEcho;
      rewrite He; destruct (sel c); cbn; eexists; eexists; split; reflexivity. }
  split; [intros fmt_v p now0 werr0 ch cs|].
  { unfold Main.pingLoop, Main.sendEcho. destruct werr0; reflexivity. }
  split; [intros fmt_v p now0 werr0 ch|intros fmt_v p now0 werr0 c cs e He].
  { unfold Main.pingLoop, Main.sendEcho. destruct werr0; reflexivity. }
  unfold Main.pingLoop, Main.sendEcho.
  destruct werr0; cbn [Main.for_loop]; unfold Main.loop_body, Main.sendEcho;
    rewrite He; destruct (sel c); cbn; eexists; eexists; split; reflexivity.
Qed.

Lemma first_send_error_is_dropped_witness :
  write_err Sample.c_send_fails = Some "sendto: network is unreachable"
  /\ Dual.status
       (Dual.pingLoop Sample.dual_p Sample.t_sent (Some "no route to host") []
          [Sample.c_send_fails])
     = Returned None
  /\ Main.status
       (Main.pingLoop Duration_String Sample.main_p Sample.t_sent
          (Some "no route to host") [] [Sample.c_send_fails])
     = Returned None.
Proof.
  assert (He : write_err Sample.c_send_fails
               = Some "sendto: network is unreachable") by reflexivity.
  split; [exact He|].
  destruct first_send_error_is_dropped as (_ & _ & HD & _ & _ & HM).
  split.
  - destruct (HD Sample.dual_p Sample.t_sent (Some "no route to host")
                Sample.c_send_fails [] _ He) as (m1 & m2 & _ & Hst).
    exact Hst.
  - destruct (HM Duration_String Sample.main_p Sample.t_sent
                (Some "no route to host") Sample.c_send_fails [] _ He)
      as (m1 & m2 & _ & Hst).
    exact Hst.
Defined.

(** ** Replies *)

Lemma string_app_assoc (a b c : string) :
  ((a ++ b) ++ c = a ++ (b ++ c))%string.
Proof. induction a as [|x a IH]; cbn; [reflexivity|now rewrite IH]. Qed.

(** The line [handleEchoReply] prints is the success line of the
    specification, and a newline. *)
Lemma Dual_success_line (ip : string) (n hop ms : Z) :
  ("64 bytes from " ++ ip ++ ": icmp_seq=" ++ fmt_d n ++ " ttl=" ++ fmt_d hop
     ++ " time=" ++ fmt_d ms ++ "ms" ++ nl
   = spec_success_line ip n hop ms ++ nl)%string.
Proof. unfold spec_success_line. rewrite !string_app_assoc. reflexivity. Qed.

(** C1, as stated, fails: with request 11 outstanding, a reply to request
    10 is reported with the success line (and a round-trip time of 0 ms),
    the timer is stopped and, after the sleep, request 12 is sent. *)
Lemma stale_reply_is_reported_and_ends_cycle :
  Dual.loop_body Sample.dual_p [Sample.dual_stale] Sample.c_recv
  = Dual.mkIteration
      (Dual.mkPingProc 5 12 Sample.ip false 100 (2 * Second) Second)
      []
      [Printf ("64 bytes from 1.2.3.4: icmp_seq=11 ttl=57 time=0ms" ++ nl)%string;
       TimerStop; Sleep Second; TimerReset (2 * Second);
       WriteTo (mkMessage ipv4_ICMPTypeEcho 0
                  (Echo 5 12 (timeToBytes Sample.t_next))) Sample.ip]
      Continue.
Proof. vm_compute. reflexivity. Qed.

(** C1, as the code has it: an echo reply taken from the channel ends the
    iteration whether or not its identifier and sequence are those of the
    session: after what the handler prints, the timer is stopped, the loop
    sleeps for the interval, arms the timer and writes the request with the
    next sequence. When both fields are those of the session, the handler
    prints the success line with the time between the instant in the payload
    and the clock. *)
Theorem echo_reply_ends_cycle p ch res c m bID bSeq bData :
  sel c = PingCh ->
  Dual.err res = None -> Dual.msg res = Some m ->
  is_echo_reply (Type_ m) = true -> Body m = Echo bID bSeq bData ->
  (8 <= List.length bData)%nat ->
  exists prints next tail,
    forallb is_Printf prints = true
    /\ Dual.it_trace (Dual.loop_body p (res :: ch) c)
       = (prints
          ++ [TimerStop; Sleep (Dual.interval p); TimerReset (Dual.rttLimit p);
              WriteTo next (Dual.dst p)] ++ tail)%list
    /\ Body next
       = Echo (Dual.id p) (wrap64 (Dual.seqnum p + 1)) (timeToBytes (now_send c))
    /\ Dual.it_chan (Dual.loop_body p (res :: ch) c) = ch
    /\ Dual.seqnum (Dual.it_proc (Dual.loop_body p (res :: ch) c))
       = wrap64 (Dual.seqnum p + 1)
    /\ (bID = Dual.id p -> bSeq = Dual.seqnum p ->
        exists t,
          bytesToTime bData = Ok t
          /\ prints
             = [Printf (spec_success_line (IP (Dual.dst p)) (Dual.seqnum p)
                          (Dual.res_ttl res)
                          (Milliseconds (time_Since (now_recv c) t)) ++ nl)%string]).
Proof.
  intros Hsel Herr Hmsg Hty Hbody Hlen.
  destruct (bytesToTime_ok bData Hlen) as [t Ht].
  unfold Dual.loop_body. rewrite Hsel, Herr, Hmsg.
  unfold Dual.handleMsg. unfold is_echo_reply in Hty. rewrite Hty.
  unfold Dual.handleEchoReply. rewrite Hbody.
  destruct ((bID =? Dual.id p) && (bSeq =? Dual.seqnum p)) eqn:Hmatch;
    rewrite ?Ht; cbn [bind]; unfold Dual.sendEcho.
  - destruct (write_err c); cbn;
      eexists [Printf _]; eexists; eexists;
      (repeat split; try reflexivity);
      intros _ _; exists t; (split; [reflexivity|]); f_equal; f_equal;
      exact (Dual_success_line (IP (Dual.dst p)) (Dual.seqnum p)
               (Dual.res_ttl res) (Milliseconds (time_Since (now_recv c) t))).
  - apply andb_false_iff in Hmatch.
    destruct (write_err c); cbn;
      eexists [Printf _]; eexists; eexists;
      (repeat split; try reflexivity);
      intros -> ->; rewrite !Z.eqb_refl in Hmatch;
      destruct Hmatch; discriminate.
Qed.

Lemma echo_reply_ends_cycle_witness :
  sel Sample.c_recv = PingCh
  /\ Dual.err Sample.dual_reply = None
  /\ Dual.msg Sample.dual_reply = Some (Sample.echo_reply 5 11)
  /\ is_echo_reply (Type_ (Sample.echo_reply 5 11)) = true
  /\ (8 <= List.length (timeToBytes Sample.t_sent))%nat
  /\ exists prints next tail,
       forallb is_Printf prints = true
       /\ Dual.it_trace
            (Dual.loop_body Sample.dual_p [Sample.dual_reply] Sample.c_recv)
          = (prints
             ++ [TimerStop; Sleep (Dual.interval Sample.dual_p);
                 TimerReset (Dual.rttLimit Sample.dual_p);
                 WriteTo next (Dual.dst Sample.dual_p)] ++ tail)%list
       /\ Body next
          = Echo (Dual.id Sample.dual_p) (wrap64 (Dual.seqnum Sample.dual_p + 1))
              (timeToBytes (now_send Sample.c_recv))
       /\ Dual.it_chan
            (Dual.loop_body Sample.dual_p [Sample.dual_reply] Sample.c_recv) = []
       /\ Dual.seqnum
            (Dual.it_proc
               (Dual.loop_body Sample.dual_p [Sample.dual_reply] Sample.c_recv))
          = wrap64 (Dual.seqnum Sample.dual_p + 1)
       /\ (5 = Dual.id Sample.dual_p -> 11 = Dual.seqnum Sample.dual_p ->
           exists t,
             bytesToTime (timeToBytes Sample.t_sent) = Ok t
             /\ prints
                = [Printf (spec_success_line (IP (Dual.dst Sample.dual_p))
                             (Dual.seqnum Sample.dual_p)
                             (Dual.res_ttl Sample.dual_reply)
                             (Milliseconds
                                (time_Since (now_recv Sample.c_recv) t))
                           ++ nl)%string]).
Proof.
  assert (Hlen : (8 <= List.length (timeToBytes Sample.t_sent))%nat)
    by (vm_compute; lia).
  repeat (split; [first [reflexivity | exact Hlen]|]).
  exact (echo_reply_ends_cycle Sample.dual_p [] Sample.dual_reply Sample.c_recv
           (Sample.echo_reply 5 11) 5 11 (timeToBytes Sample.t_sent)
           eq_refl eq_refl eq_refl eq_refl eq_refl Hlen).
Defined.

(** C8, as stated, fails for the IPv4-only variant: a reply to the
    outstanding request, handled 20 ms after the instant in its payload, is
    reported as [64 bytes from 1.2.3.4: time=20ms], which is the success line
    of the specification for no sequence, TTL and time. *)
Lemma main_success_line_differs :
  Main.handleRecv Duration_String Sample.main_p
    (Main.bytes Sample.main_reply) Sample.t_recv
  = Ok [Printf ("64 bytes from 1.2.3.4: time=20ms" ++ nl)%string]
  /\ ~ (exists n hopMetric rtt_ms,
          Main.handleRecv Duration_String Sample.main_p
            (Main.bytes Sample.main_reply) Sample.t_recv
          = Ok [Printf (spec_success_line "1.2.3.4" n hopMetric rtt_ms ++ nl)%string]).
Proof.
  assert (H : Main.handleRecv Duration_String Sample.main_p
                (Main.bytes Sample.main_reply) Sample.t_recv
              = Ok [Printf ("64 bytes from 1.2.3.4: time=20ms" ++ nl)%string])
    by (vm_compute; reflexivity).
  split; [exact H|].
  intros (n & hop & ms & H'). rewrite H in H'.
  unfold spec_success_line in H'. cbn in H'. discriminate H'.
Qed.

(** C8, as the code has it: a reply with the identifier and the sequence of
    the session is reported by the IPv4/IPv6 variant as the one line
    [64 bytes from <ip>: icmp_seq=<n> ttl=<hopMetric> time=<rtt_ms>ms], with
    the sequence of the session, the TTL or hop limit received with the
    packet and the whole milliseconds between the instant in the payload and
    the clock; the IPv4-only variant reports it as the one line
    [64 bytes from <ip>: time=<rtt>], the duration printed with [%v]. *)
Theorem success_line_format :
  (forall p m hop now bData t,
     is_echo_reply (Type_ m) = true ->
     Body m = Echo (Dual.id p) (Dual.seqnum p) bData ->
     bytesToTime bData = Ok t ->
     Dual.handleMsg p (Some m) hop now
     = Ok [Printf (spec_success_line (IP (Dual.dst p)) (Dual.seqnum p) hop
                     (Milliseconds (time_Since now t)) ++ nl)%string])
  /\ (forall fmt_v p buf m now bData t,
        Main.parsed buf = inr m ->
        Body m = Echo (Main.id p) (Main.seqnum p) bData ->
        bytesToTime bData = Ok t ->
        Main.handleRecv fmt_v p (Some buf) now
        = Ok [Printf ("64 bytes from " ++ IP (Main.dst p) ++ ": time="
                        ++ fmt_v (time_Since now t) ++ nl)%string]).
Proof.
  split.
  - intros p m hop now bData t Hty Hbody Ht.
    unfold Dual.handleMsg. unfold is_echo_reply in Hty. rewrite Hty.
    unfold Dual.handleEchoReply. rewrite Hbody, !Z.eqb_refl, Ht. cbn [andb bind].
    rewrite Dual_success_line. reflexivity.
  - intros fmt_v p buf m now bData t Hp Hbody Ht.
    unfold Main.handleRecv, Main.ParseMessage.
    rewrite Hp, Hbody, !Z.eqb_refl, Ht. reflexivity.
Qed.

Lemma success_line_format_witness :
  is_echo_reply (Type_ (Sample.echo_reply 5 11)) = true
  /\ bytesToTime (timeToBytes Sample.t_sent) = Ok Sample.t_sent
  /\ Dual.handleMsg Sample.dual_p (Some (Sample.echo_reply 5 11)) 57 Sample.t_recv
     = Ok [Printf (spec_success_line "1.2.3.4" 11 57 20 ++ nl)%string]
  /\ Main.handleRecv Duration_String Sample.main_p
       (Some (Main.mkBuffer (inr (Sample.echo_reply 5 11)))) Sample.t_recv
     = Ok [Printf ("64 bytes from 1.2.3.4: time=20ms" ++ nl)%string].
Proof.
  assert (Ht : bytesToTime (timeToBytes Sample.t_sent) = Ok Sample.t_sent)
    by (vm_compute; reflexivity).
  split; [reflexivity|]. split; [exact Ht|]. split.
  - exact (proj1 success_line_format Sample.dual_p (Sample.echo_reply 5 11) 57
             Sample.t_recv (timeToBytes Sample.t_sent) Sample.t_sent
             eq_refl eq_refl Ht).
  - exact (proj2 success_line_format Duration_String Sample.main_p
             (Main.mkBuffer (inr (Sample.echo_reply 5 11)))
             (Sample.echo_reply 5 11) Sample.t_recv
             (timeToBytes Sample.t_sent) Sample.t_sent eq_refl eq_refl Ht).
Defined.

(** ** Sequence numbers *)

Lemma sent_seqs_app (a b : list Effect) :
  sent_seqs (a ++ b) = (sent_seqs a ++ sent_seqs b)%list.
Proof.
  induction a as [|e a IH]; [reflexivity|].
  destruct e as [l| |[ty co [i sq d|]] dst'| | | |]; cbn; now rewrite IH.
Qed.

Lemma sent_seqs_prints (es : list Effect) :
  forallb is_Printf es = true -> sent_seqs es = [].
Proof.
  induction es as [|e es IH]; [reflexivity|].
  destruct e; cbn; try discriminate. exact IH.
Qed.

(** What an iteration of the IPv4/IPv6 variant does to the sequence number:
    nothing when it panics, and otherwise one increment, carried by the one
    request it writes. *)
Lemma Dual_loop_body_seq p ch c :
  (Dual.it_exit (Dual.loop_body p ch c) = BodyPanic
   /\ Dual.it_trace (Dual.loop_body p ch c) = []
   /\ Dual.it_proc (Dual.loop_body p ch c) = p)
  \/ (Dual.it_exit (Dual.loop_body p ch c) <> BodyPanic
      /\ sent_seqs (Dual.it_trace (Dual.loop_body p ch c))
         = [wrap64 (Dual.seqnum p + 1)]
      /\ Dual.seqnum (Dual.it_proc (Dual.loop_body p ch c))
         = wrap64 (Dual.seqnum p + 1)).
Proof.
  unfold Dual.loop_body, Dual.sendEcho.
  destruct (sel c), ch as [|res ch']; cbn [bind].
  1-3: right; destruct (write_err c); cbn;
       (split; [discriminate|split; reflexivity]).
  destruct (match Dual.err res with
            | Some e => _
            | None => _
            end) as [es|] eqn:Hh; cbn [bind].
  - right.
    assert (Hp : sent_seqs es = []).
    { apply sent_seqs_prints. destruct (Dual.err res).
      - injection Hh as <-. reflexivity.
      - eapply Dual_handleMsg_prints. exact Hh. }
    destruct (write_err c); cbn [Dual.it_exit Dual.it_trace Dual.it_proc];
      (split; [discriminate|]);
      rewrite !sent_seqs_app, Hp; split; reflexivity.
  - left. cbn. auto.
Qed.

Lemma seqs_shift (s0 : Z) (n : nat) :
  map (fun k => wrap64 (wrap64 (s0 + 1) + Z.of_nat k)) (seq 1 n)
  = map (fun k => wrap64 (s0 + Z.of_nat k)) (seq 2 n).
Proof.
  rewrite <- (seq_shift n 1), map_map.
  apply map_ext. intros k. rewrite wrap64_add_l. f_equal. lia.
Qed.

Lemma Dual_for_loop_seqs p ch cs :
  int64_range (Dual.seqnum p) ->
  exists n : nat,
    sent_seqs (Dual.trace (Dual.for_loop p ch cs))
    = map (fun k => wrap64 (Dual.seqnum p + Z.of_nat k)) (seq 1 n)
    /\ Dual.seqnum (Dual.proc (Dual.for_loop p ch cs))
       = wrap64 (Dual.seqnum p + Z.of_nat n)
    /\ (Dual.status (Dual.for_loop p ch cs) = InSelect -> n = List.length cs).
Proof.
  revert p ch. induction cs as [|c cs IH]; intros p ch Hr; cbn [Dual.for_loop].
  - exists O. cbn. rewrite Z.add_0_r, wrap64_id by exact Hr. auto.
  - destruct (Dual_loop_body_seq p ch c) as [(He & Ht & Hp)|(He & Ht & Hp)].
    + rewrite He, Ht, Hp. exists O. cbn.
      rewrite Z.add_0_r, wrap64_id by exact Hr.
      repeat split. discriminate.
    + destruct (Dual.it_exit (Dual.loop_body p ch c)); [| |congruence].
      * destruct (IH (Dual.it_proc (Dual.loop_body p ch c))
                    (Dual.it_chan (Dual.loop_body p ch c)))
          as (n & Hs & Hf & Hn).
        { rewrite Hp. apply wrap64_range. }
        exists (S n). cbn [Dual.trace Dual.proc Dual.status].
        rewrite sent_seqs_app, Ht, Hs, Hf, Hp, seqs_shift, wrap64_add_l.
        split; [|split].
        -- cbn [seq map app]. do 2 f_equal.
        -- f_equal. lia.
        -- intros Hst. cbn [List.length]. f_equal. apply Hn, Hst.
      * exists 1%nat. cbn [Dual.trace Dual.proc Dual.status].
        rewrite sent_seqs_app, Ht, Hp.
        repeat split. discriminate.
Qed.

(** What an iteration of the IPv4-only variant does to the sequence number
    and to the channel. *)
Lemma Main_loop_body_seq fmt_v p ch c :
  Main.it_exit (Main.loop_body fmt_v p ch c) <> BodyPanic ->
  sent_seqs (Main.it_trace (Main.loop_body fmt_v p ch c))
  = [Main.seqnum (Main.it_proc (Main.loop_body fmt_v p ch c))]
  /\ Main.seqnum (Main.it_proc (Main.loop_body fmt_v p ch c))
     = (if took_channel c ch then Main.seqnum p
        else wrap64 (Main.seqnum p + 1))
  /\ Main.it_chan (Main.loop_body fmt_v p ch c)
     = (if took_channel c ch then tl ch else ch).
Proof.
  unfold Main.loop_body, took_channel, Main.sendEcho.
  destruct (sel c), ch as [|res ch']; cbn [bind].
  1-3: destruct (write_err c); cbn; intros _; repeat split; reflexivity.
  destruct (Main.handleRecv fmt_v p (Main.bytes res) (now_recv c))
    as [es|] eqn:Hh; cbn [bind].
  - apply Main_handleRecv_prints, sent_seqs_prints in Hh.
    destruct (write_err c);
      cbn [Main.it_exit Main.it_trace Main.it_proc Main.it_chan];
      intros _; rewrite !sent_seqs_app, Hh; repeat split; reflexivity.
  - cbn. congruence.
Qed.

(** C4, as stated, fails for the IPv4-only variant: a session whose request
    11 is answered writes the next request with sequence 11 again; two
    requests were written and the sequence number was not incremented. *)
Lemma main_sends_without_increment :
  sent_seqs
    (Main.trace
       (Main.pingLoop Duration_String Sample.main_p Sample.t_sent None
          [Sample.main_reply] [Sample.c_recv]))
  = [11; 11]
  /\ Main.seqnum
       (Main.proc
          (Main.pingLoop Duration_String Sample.main_p Sample.t_sent None
             [Sample.main_reply] [Sample.c_recv]))
     = 11.
Proof. split; vm_compute; reflexivity. Qed.

(** C4, as the code has it. In the IPv4/IPv6 variant the requests written by
    a run carry the sequence numbers that follow the initial one, one after
    the other, and the sequence number of the session ends as the initial one
    plus the number of requests written (in [int] arithmetic), however the
    iterations ended. In the IPv4-only variant [sendEcho] leaves the sequence
    number as it is: an iteration increments it exactly when it ended by the
    timer, and the request it writes carries the value it then has. *)
Theorem seqnum_per_request :
  (forall p now0 werr0 ch cs,
     int64_range (Dual.seqnum p) ->
     exists n : nat,
       sent_seqs (Dual.trace (Dual.pingLoop p now0 werr0 ch cs))
       = map (fun k => wrap64 (Dual.seqnum p + Z.of_nat k)) (seq 1 n)
       /\ Dual.seqnum (Dual.proc (Dual.pingLoop p now0 werr0 ch cs))
          = wrap64 (Dual.seqnum p + Z.of_nat n))
  /\ (forall fmt_v p ch c,
        Main.it_exit (Main.loop_body fmt_v p ch c) <> BodyPanic ->
        sent_seqs (Main.it_trace (Main.loop_body fmt_v p ch c))
        = [Main.seqnum (Main.it_proc (Main.loop_body fmt_v p ch c))]
        /\ Main.seqnum (Main.it_proc (Main.loop_body fmt_v p ch c))
           = if took_channel c ch then Main.seqnum p
             else wrap64 (Main.seqnum p + 1)).
Proof.
  split.
  - intros p now0 werr0 ch cs Hr. unfold Dual.pingLoop.
    assert (Hsend : Dual.sendEcho p now0 werr0
                    = (Dual.set_seqnum p (wrap64 (Dual.seqnum p + 1)),
                       [WriteTo
                          (mkMessage
                             (if negb (Dual.isIPv6 p) then ipv4_ICMPTypeEcho
                              else ipv6_ICMPTypeEchoRequest) 0
                             (Echo (Dual.id p) (wrap64 (Dual.seqnum p + 1))
                                (timeToBytes now0))) (Dual.dst p)],
                       snd (Dual.sendEcho p now0 werr0))).
    { unfold Dual.sendEcho. destruct werr0; reflexivity. }
    rewrite Hsend.
    destruct (Dual_for_loop_seqs
                (Dual.set_seqnum p (wrap64 (Dual.seqnum p + 1))) ch cs)
      as (n & Hs & Hf & _).
    { apply wrap64_range. }
    exists (S n). cbn [Dual.trace Dual.proc].
    cbn [app sent_seqs]. rewrite Hs, Hf.
    cbn [Dual.seqnum Dual.set_seqnum].
    rewrite seqs_shift, wrap64_add_l. split.
    + cbn [seq map]. reflexivity.
    + f_equal. lia.
  - intros fmt_v p ch c Hx.
    destruct (Main_loop_body_seq fmt_v p ch c Hx) as (H1 & H2 & _).
    split; assumption.
Qed.

Lemma seqnum_per_request_witness :
  int64_range (Dual.seqnum Sample.dual_p)
  /\ exists n : nat,
       sent_seqs
         (Dual.trace
            (Dual.pingLoop Sample.dual_p Sample.t_sent None [Sample.dual_reply]
               [Sample.c_recv; Sample.c_timer]))
       = map (fun k => wrap64 (Dual.seqnum Sample.dual_p + Z.of_nat k)) (seq 1 n)
       /\ Dual.seqnum
            (Dual.proc
               (Dual.pingLoop Sample.dual_p Sample.t_sent None
                  [Sample.dual_reply] [Sample.c_recv; Sample.c_timer]))
          = wrap64 (Dual.seqnum Sample.dual_p + Z.of_nat n).
Proof.
  assert (Hr : int64_range (Dual.seqnum Sample.dual_p))
    by (unfold int64_range; cbn; lia).
  split; [exact Hr|].
  exact (proj1 seqnum_per_request Sample.dual_p Sample.t_sent None
           [Sample.dual_reply] [Sample.c_recv; Sample.c_timer] Hr).
Defined.

Lemma Main_for_loop_seqnum fmt_v p ch cs :
  int64_range (Main.seqnum p) ->
  Main.status (Main.for_loop fmt_v p ch cs) = InSelect ->
  Main.seqnum (Main.proc (Main.for_loop fmt_v p ch cs))
  = wrap64 (Main.seqnum p + Z.of_nat (timeouts ch cs)).
Proof.
  revert p ch. induction cs as [|c cs IH]; intros p ch Hr;
    cbn [Main.for_loop timeouts].
  - intros _. cbn. rewrite Z.add_0_r, wrap64_id by exact Hr. reflexivity.
  - destruct (Main.it_exit (Main.loop_body fmt_v p ch c)) eqn:He;
      cbn [Main.status Main.proc]; try discriminate.
    intros Hst.
    destruct (Main_loop_body_seq fmt_v p ch c) as (_ & Hs & Hc);
      [congruence|].
    rewrite IH; [|rewrite Hs; destruct (took_channel c ch);
                   [exact Hr|apply wrap64_range]|exact Hst].
    rewrite Hs, Hc. destruct (took_channel c ch).
    + reflexivity.
    + rewrite wrap64_add_l. f_equal. lia.
Qed.

(** C7, as stated, fails: a session of the IPv4/IPv6 variant created with
    the sequence number 65535 has, after one completed cycle, the sequence
    number 65537, and (65535 + 1) mod 2^16 is 0. *)
Lemma seqnum_not_reduced_mod_2_16 :
  Dual.status
    (Dual.pingLoop (Dual.newPingProc Sample.ip false 100 5 65535) Sample.t_sent
       None [] [Sample.c_timer])
  = InSelect
  /\ Dual.seqnum
       (Dual.proc
          (Dual.pingLoop (Dual.newPingProc Sample.ip false 100 5 65535)
             Sample.t_sent None [] [Sample.c_timer]))
     = 65537
  /\ (65535 + 1) mod 2 ^ 16 = 0.
Proof. repeat split; vm_compute; reflexivity. Qed.

(** C7, as the code has it: when a run stands in the [select] again after
    [N] iterations, the sequence number of the IPv4/IPv6 variant is the
    initial one plus [1 + N], in [int] arithmetic and not modulo 2^16,
    however the iterations ended; the sequence number of the IPv4-only
    variant is the initial one plus the number of the iterations that ended
    by the timer. *)
Theorem seqnum_after_cycles :
  (forall p now0 werr0 ch cs,
     Dual.status (Dual.pingLoop p now0 werr0 ch cs) = InSelect ->
     Dual.seqnum (Dual.proc (Dual.pingLoop p now0 werr0 ch cs))
     = wrap64 (Dual.seqnum p + 1 + Z.of_nat (List.length cs)))
  /\ (forall fmt_v p now0 werr0 ch cs,
        int64_range (Main.seqnum p) ->
        Main.status (Main.pingLoop fmt_v p now0 werr0 ch cs) = InSelect ->
        Main.seqnum (Main.proc (Main.pingLoop fmt_v p now0 werr0 ch cs))
        = wrap64 (Main.seqnum p + Z.of_nat (timeouts ch cs))).
Proof.
  split.
  - intros p now0 werr0 ch cs. unfold Dual.pingLoop.
    assert (Hsend : fst (fst (Dual.sendEcho p now0 werr0))
                    = Dual.set_seqnum p (wrap64 (Dual.seqnum p + 1))).
    { unfold Dual.sendEcho. destruct werr0; reflexivity. }
    destruct (Dual.sendEcho p now0 werr0) as [[p1 ws] r0].
    cbn [fst] in Hsend. subst p1. cbn [Dual.status Dual.proc].
    intros Hst.
    destruct (Dual_for_loop_seqs
                (Dual.set_seqnum p (wrap64 (Dual.seqnum p + 1))) ch cs)
      as (n & _ & Hf & Hn).
    { apply wrap64_range. }
    rewrite Hf, (Hn Hst). cbn [Dual.seqnum Dual.set_seqnum].
    rewrite wrap64_add_l. reflexivity.
  - intros fmt_v p now0 werr0 ch cs Hr. unfold Main.pingLoop.
    destruct (Main.sendEcho p now0 werr0) as [ws r0].
    cbn [Main.status Main.proc]. apply Main_for_loop_seqnum. exact Hr.
Qed.

Lemma seqnum_after_cycles_witness :
  (Dual.status
     (Dual.pingLoop Sample.dual_p Sample.t_sent None [Sample.dual_reply]
        [Sample.c_recv; Sample.c_timer]) = InSelect
   /\ Dual.seqnum
        (Dual.proc
           (Dual.pingLoop Sample.dual_p Sample.t_sent None [Sample.dual_reply]
              [Sample.c_recv; Sample.c_timer]))
      = wrap64 (11 + 1 + 2))
  /\ (int64_range (Main.seqnum Sample.main_p)
      /\ Main.status
           (Main.pingLoop Duration_String Sample.main_p Sample.t_sent None
              [Sample.main_reply] [Sample.c_recv; Sample.c_timer]) = InSelect
      /\ Main.seqnum
           (Main.proc
              (Main.pingLoop Duration_String Sample.main_p Sample.t_sent None
                 [Sample.main_reply] [Sample.c_recv; Sample.c_timer]))
         = wrap64 (11 + 1)).
Proof.
  assert (Hr : int64_range (Main.seqnum Sample.main_p))
    by (unfold int64_range; cbn; lia).
  split; (split; [first [exact Hr|reflexivity]|]).
  - exact (proj1 seqnum_after_cycles Sample.dual_p Sample.t_sent None
             [Sample.dual_reply] [Sample.c_recv; Sample.c_timer] eq_refl).
  - split; [reflexivity|].
    exact (proj2 seqnum_after_cycles Duration_String Sample.main_p Sample.t_sent
             None [Sample.main_reply] [Sample.c_recv; Sample.c_timer] Hr eq_refl).
Defined.

(** ** The receiver task *)










(** * Further properties of the code *)

(** ** The codec on wire data *)

Lemma time_Unix_quot_rem (n : Z) :
  Time_wf (time_Unix (Z.quot n 1000000000) (Z.rem n 1000000000))
  /\ nanos (time_Unix (Z.quot n 1000000000) (Z.rem n 1000000000)) = n.
Proof.
  pose proof (Z.quot_rem' n 1000000000) as Hqr.
  pose proof (Z.rem_bound_abs n 1000000000 ltac:(lia)) as Hb.
  unfold time_Unix.
  destruct (Z.rem n 1000000000 <? 0) eqn:Hlt; cbn [orb].
  - apply Z.ltb_lt in Hlt.
    assert (Hq0 : Z.quot (Z.rem n 1000000000) 1000000000 = 0)
      by (apply Z.quot_small_iff; lia).
    rewrite Hq0.
    replace (Z.rem n 1000000000 - 0 * 1000000000 <? 0) with true
      by (symmetry; apply Z.ltb_lt; lia).
    unfold Time_wf, nanos. cbn [unix_sec unix_nsec]. lia.
  - apply Z.ltb_ge in Hlt.
    replace (1000000000 <=? Z.rem n 1000000000) with false
      by (symmetry; apply Z.leb_gt; lia).
    unfold Time_wf, nanos. cbn [unix_sec unix_nsec]. lia.
Qed.

Lemma nth_byte_wrap64 (x i : Z) :
  0 <= i <= 7 -> nth_byte (wrap64 x) i = nth_byte x i.
Proof.
  intros Hi. rewrite !nth_byte_div by lia. unfold wrap64.
  assert (Hc : i = 0 \/ i = 1 \/ i = 2 \/ i = 3 \/ i = 4 \/ i = 5
               \/ i = 6 \/ i = 7) by lia.
  destruct Hc as [->|[->|[->|[->|[->|[->|[->| ->]]]]]]];
    cbn -[Z.div Z.modulo Z.add Z.sub];
    Z.to_euclidean_division_equations; lia.
Qed.

Lemma nth_byte_sum (b0 b1 b2 b3 b4 b5 b6 b7 : Z) :
  Forall is_byte [b0; b1; b2; b3; b4; b5; b6; b7] ->
  map (nth_byte (b0 * 2 ^ 56 + b1 * 2 ^ 48 + b2 * 2 ^ 40 + b3 * 2 ^ 32
                 + b4 * 2 ^ 24 + b5 * 2 ^ 16 + b6 * 2 ^ 8 + b7))
    [0; 1; 2; 3; 4; 5; 6; 7]
  = [b0; b1; b2; b3; b4; b5; b6; b7].
Proof.
  intros H. unfold is_byte in H.
  repeat match goal with
         | H : Forall _ (_ :: _) |- _ => inversion H; subst; clear H
         end.
  cbn [map]. rewrite !nth_byte_div by lia.
  cbn -[Z.div Z.modulo Z.add Z.sub Z.mul].
  repeat f_equal; Z.to_euclidean_division_equations; lia.
Qed.

(** What [bytesToTime] returns on eight bytes or more: the instant whose
    count of nanoseconds is the [int64] the first eight bytes denote. *)
Lemma bytesToTime_value (b0 b1 b2 b3 b4 b5 b6 b7 : Z) (rest : list Z) :
  bytesToTime (b0 :: b1 :: b2 :: b3 :: b4 :: b5 :: b6 :: b7 :: rest)
  = Ok (time_Unix
          (Z.quot (wrap64 (b0 * 2 ^ 56 + b1 * 2 ^ 48 + b2 * 2 ^ 40 + b3 * 2 ^ 32
                           + b4 * 2 ^ 24 + b5 * 2 ^ 16 + b6 * 2 ^ 8 + b7))
             1000000000)
          (Z.rem (wrap64 (b0 * 2 ^ 56 + b1 * 2 ^ 48 + b2 * 2 ^ 40 + b3 * 2 ^ 32
                          + b4 * 2 ^ 24 + b5 * 2 ^ 16 + b6 * 2 ^ 8 + b7))
             1000000000)).
Proof. rewrite bytesToTime_unfold. cbv zeta. rewrite decode_sum. reflexivity. Qed.

Lemma bytesToTime_Ok_length (bs : list Z) (t : Time) :
  bytesToTime bs = Ok t -> (8 <= List.length bs)%nat.
Proof.
  intros H. destruct (Nat.lt_ge_cases (List.length bs) 8) as [Hs|Hl];
    [|exact Hl].
  rewrite bytesToTime_short in H by exact Hs. discriminate.
Qed.

(** X1: whatever the bytes, an instant the decoder returns has its
    nanoseconds within the second and a count of nanoseconds since the epoch
    that fits [int64]. *)
Theorem decoded_time_well_formed (bs : list Z) (t : Time) :
  bytesToTime bs = Ok t -> Time_wf t /\ int64_range (nanos t).
Proof.
  intros H. pose proof (bytesToTime_Ok_length bs t H) as Hl.
  do 8 (destruct bs as [|? bs]; [cbn [List.length] in Hl; lia|]).
  rewrite bytesToTime_value in H. injection H as <-.
  match goal with
  | |- context [wrap64 ?x] =>
      destruct (time_Unix_quot_rem (wrap64 x)) as [Hwf Hn];
      split; [exact Hwf|rewrite Hn; apply wrap64_range]
  end.
Qed.

Lemma decoded_time_well_formed_witness :
  bytesToTime [0; 0; 0; 0; 59; 154; 202; 2] = Ok (mkTime 1 2)
  /\ Time_wf (mkTime 1 2) /\ int64_range (nanos (mkTime 1 2)).
Proof.
  assert (H : bytesToTime [0; 0; 0; 0; 59; 154; 202; 2] = Ok (mkTime 1 2))
    by (vm_compute; reflexivity).
  split; [exact H|].
  exact (decoded_time_well_formed _ _ H).
Defined.

(** X2: encoding what the decoder returns gives back the first eight bytes
    of its input, for every input whose first eight elements are bytes. *)
Theorem payload_round_trip (bs : list Z) (t : Time) :
  Forall is_byte (firstn 8 bs) ->
  bytesToTime bs = Ok t ->
  timeToBytes t = firstn 8 bs.
Proof.
  intros Hb H. pose proof (bytesToTime_Ok_length bs t H) as Hl.
  do 8 (destruct bs as [|? bs]; [cbn [List.length] in Hl; lia|]).
  cbn [firstn] in *.
  rewrite bytesToTime_value in H. injection H as <-.
  rewrite timeToBytes_unfold. unfold UnixNano.
  match goal with
  | |- context [time_Unix (Z.quot (wrap64 ?x) _) _] =>
      destruct (time_Unix_quot_rem (wrap64 x)) as [_ Hn]; rewrite Hn
  end.
  rewrite (wrap64_id (wrap64 _)) by apply wrap64_range.
  cbn [map]. rewrite !nth_byte_wrap64 by lia.
  apply (nth_byte_sum _ _ _ _ _ _ _ _ Hb).
Qed.

Lemma payload_round_trip_witness :
  Forall is_byte (firstn 8 [255; 255; 255; 255; 255; 255; 255; 255; 7; 7])
  /\ bytesToTime [255; 255; 255; 255; 255; 255; 255; 255; 7; 7]
     = Ok (mkTime (-1) 999999999)
  /\ timeToBytes (mkTime (-1) 999999999)
     = firstn 8 [255; 255; 255; 255; 255; 255; 255; 255; 7; 7].
Proof.
  assert (Hb : Forall is_byte
                 (firstn 8 [255; 255; 255; 255; 255; 255; 255; 255; 7; 7]))
    by (cbn [firstn]; repeat constructor; unfold is_byte; lia).
  assert (H : bytesToTime [255; 255; 255; 255; 255; 255; 255; 255; 7; 7]
              = Ok (mkTime (-1) 999999999)) by (vm_compute; reflexivity).
  split; [exact Hb|]. split; [exact H|].
  exact (payload_round_trip _ _ Hb H).
Defined.

(** X3: the decoder reads the first eight bytes only: what follows them in
    the slice changes nothing. *)
Theorem bytesToTime_first_eight (bs : list Z) :
  (8 <= List.length bs)%nat -> bytesToTime bs = bytesToTime (firstn 8 bs).
Proof.
  intros Hl.
  do 8 (destruct bs as [|? bs]; [cbn [List.length] in Hl; lia|]).
  cbn [firstn]. rewrite !bytesToTime_unfold. reflexivity.
Qed.

Lemma bytesToTime_first_eight_witness :
  (8 <= List.length [0; 0; 0; 0; 59; 154; 202; 2; 9; 9; 9]%Z)%nat
  /\ bytesToTime [0; 0; 0; 0; 59; 154; 202; 2; 9; 9; 9]
     = bytesToTime (firstn 8 [0; 0; 0; 0; 59; 154; 202; 2; 9; 9; 9]).
Proof.
  assert (Hl : (8 <= List.length [0; 0; 0; 0; 59; 154; 202; 2; 9; 9; 9]%Z)%nat)
    by (cbn; lia).
  split; [exact Hl|]. exact (bytesToTime_first_eight _ Hl).
Defined.

(** X4: read as one number, most significant byte first, the payload of an
    instant is its [UnixNano] count as an unsigned 64-bit number (the two's
    complement of a negative count). *)
Theorem timeToBytes_big_endian (t : Time) :
  be_value (timeToBytes t) = UnixNano t mod 2 ^ 64.
Proof.
  rewrite timeToBytes_unfold, <- bytes_sum. unfold be_value. cbn [map fold_left].
  lia.
Qed.

(** ** When the handlers panic *)

Lemma bytesToTime_Panic_iff (bs : list Z) :
  bytesToTime bs = Panic <-> (List.length bs < 8)%nat.
Proof.
  split.
  - intros H. destruct (Nat.lt_ge_cases (List.length bs) 8) as [Hs|Hl];
      [exact Hs|].
    destruct (bytesToTime_ok bs Hl) as [t Ht]. congruence.
  - apply bytesToTime_short.
Qed.

Lemma Dual_handleMsg_panic_inv p m hop now :
  Dual.handleMsg p (Some m) hop now = Panic ->
  exists bID bSeq bData,
    Body m = Echo bID bSeq bData /\ (List.length bData < 8)%nat.
Proof.
  unfold Dual.handleMsg, Dual.handleEchoReply.
  destruct (_ || _); [|destruct (_ || _); discriminate].
  destruct (Body m) as [bID bSeq bData|]; cbn [bind]; [|discriminate].
  destruct (_ && _); cbn [bind]; [|discriminate].
  destruct (bytesToTime bData) eqn:Hb; cbn [bind]; [discriminate|].
  intros _. exists bID, bSeq, bData. split; [reflexivity|].
  apply bytesToTime_Panic_iff, Hb.
Qed.

(** X5: [handleMsg] of the IPv4/IPv6 variant panics on a message exactly
    when it is an echo reply with the identifier and the sequence of the
    session and a payload of fewer than eight bytes. *)
Theorem Dual_handleMsg_panics_iff p m hop now :
  Dual.handleMsg p (Some m) hop now = Panic
  <-> is_echo_reply (Type_ m) = true
      /\ exists bData,
           Body m = Echo (Dual.id p) (Dual.seqnum p) bData
           /\ (List.length bData < 8)%nat.
Proof.
  unfold Dual.handleMsg, is_echo_reply, Dual.handleEchoReply.
  destruct (_ || _).
  - destruct (Body m) as [bID bSeq bData|]; cbn [bind].
    + destruct ((bID =? Dual.id p) && (bSeq =? Dual.seqnum p)) eqn:Hm.
      * apply andb_true_iff in Hm. destruct Hm as [H1 H2].
        apply Z.eqb_eq in H1, H2. subst bID bSeq.
        destruct (bytesToTime bData) eqn:Hb; cbn [bind].
        -- split; [discriminate|]. intros (_ & d & [= <-] & Hl).
           apply bytesToTime_Panic_iff in Hl. congruence.
        -- split; [|reflexivity]. intros _. split; [reflexivity|].
           exists bData. split; [reflexivity|].
           apply bytesToTime_Panic_iff, Hb.
      * cbn [bind]. split; [discriminate|].
        intros (_ & d & [= -> -> <-] & _). rewrite !Z.eqb_refl in Hm.
        discriminate.
    + split; [discriminate|]. intros (_ & d & H & _). discriminate.
  - split.
    + destruct (_ || _); discriminate.
    + intros [H _]. discriminate.
Qed.

Lemma Main_handleRecv_panic_inv fmt_v p b now :
  Main.handleRecv fmt_v p b now = Panic ->
  exists m bID bSeq bData,
    Main.ParseMessage b = inr m /\ Body m = Echo bID bSeq bData
    /\ (List.length bData < 8)%nat.
Proof.
  unfold Main.handleRecv.
  destruct (Main.ParseMessage b) as [e|m]; [discriminate|].
  destruct (Body m) as [bID bSeq bData|] eqn:Hbody; [|discriminate].
  destruct (_ && _); cbn [bind]; [|discriminate].
  destruct (bytesToTime bData) eqn:Hb; cbn [bind]; [discriminate|].
  intros _. exists m, bID, bSeq, bData. repeat split; [exact Hbody|].
  apply bytesToTime_Panic_iff, Hb.
Qed.

(** X6: [handleRecv] of the IPv4-only variant panics exactly when the
    buffer parses to a message whose body is an echo with the identifier and
    the sequence of the session and a payload of fewer than eight bytes. *)
Theorem Main_handleRecv_panics_iff fmt_v p b now :
  Main.handleRecv fmt_v p b now = Panic
  <-> exists m bData,
        Main.ParseMessage b = inr m
        /\ Body m = Echo (Main.id p) (Main.seqnum p) bData
        /\ (List.length bData < 8)%nat.
Proof.
  unfold Main.handleRecv.
  destruct (Main.ParseMessage b) as [e|m].
  - split; [discriminate|]. intros (m' & d & H & _). discriminate.
  - destruct (Body m) as [bID bSeq bData|] eqn:Hbody.
    + destruct ((bID =? Main.id p) && (bSeq =? Main.seqnum p)) eqn:Hm.
      * apply andb_true_iff in Hm. destruct Hm as [H1 H2].
        apply Z.eqb_eq in H1, H2. subst bID bSeq.
        destruct (bytesToTime bData) eqn:Hb; cbn [bind].
        -- split; [discriminate|]. intros (m' & d & [= <-] & Hd & Hl).
           rewrite Hbody in Hd. injection Hd as <-.
           apply bytesToTime_Panic_iff in Hl. congruence.
        -- split; [|reflexivity]. intros _. exists m, bData.
           repeat split; [exact Hbody|apply bytesToTime_Panic_iff, Hb].
      * cbn [bind]. split; [discriminate|].
        intros (m' & d & [= <-] & Hd & _). rewrite Hbody in Hd.
        injection Hd as -> -> <-. rewrite !Z.eqb_refl in Hm. discriminate.
    + split; [discriminate|].
      intros (m' & d & [= <-] & Hd & _). congruence.
Qed.

(** ** Messages that are no echo reply *)

(** X7: in the IPv4/IPv6 variant a message taken from the channel that is
    no echo reply never panics and ends the iteration like a reply. A
    time-exceeded message of either family is reported with the sequence of
    the outstanding request; any other type is reported as unexpected, in a
    line that is not ended. *)
Theorem other_message_ends_cycle p ch res c m :
  sel c = PingCh ->
  Dual.err res = None -> Dual.msg res = Some m ->
  is_echo_reply (Type_ m) = false ->
  exists next tail,
    Dual.it_trace (Dual.loop_body p (res :: ch) c)
    = ([Printf (if is_time_exceeded (Type_ m) then
                  ("From " ++ IP (Dual.dst p) ++ ": icmp_seq="
                     ++ fmt_d (Dual.seqnum p) ++ " Time exceeded: Hop limit"
                     ++ nl)%string
                else "Unexpected message type received.");
        TimerStop; Sleep (Dual.interval p); TimerReset (Dual.rttLimit p);
        WriteTo next (Dual.dst p)] ++ tail)%list
    /\ Body next
       = Echo (Dual.id p) (wrap64 (Dual.seqnum p + 1)) (timeToBytes (now_send c))
    /\ Dual.it_exit (Dual.loop_body p (res :: ch) c) <> BodyPanic.
Proof.
  intros Hsel Herr Hmsg Hty.
  unfold Dual.loop_body. rewrite Hsel, Herr, Hmsg.
  unfold Dual.handleMsg. unfold is_echo_reply in Hty. rewrite Hty.
  unfold is_time_exceeded, Dual.handleTimeExceeded, Dual.sendEcho.
  destruct (ICMPType_eqb (Type_ m) ipv4_ICMPTypeTimeExceeded
            || ICMPType_eqb (Type_ m) ipv6_ICMPTypeTimeExceeded); cbn [bind];
    destruct (write_err c); cbn;
    eexists; eexists; (repeat split; try reflexivity); discriminate.
Qed.

Lemma other_message_ends_cycle_witness :
  sel Sample.c_recv = PingCh
  /\ is_echo_reply (Type_ (mkMessage ipv4_ICMPTypeTimeExceeded 0 OtherBody))
     = false
  /\ exists next tail,
       Dual.it_trace
         (Dual.loop_body Sample.dual_p
            [Dual.mkRecvResult
               (Some (mkMessage ipv4_ICMPTypeTimeExceeded 0 OtherBody)) 57 None]
            Sample.c_recv)
       = ([Printf ("From 1.2.3.4: icmp_seq=11 Time exceeded: Hop limit"
                   ++ nl)%string;
           TimerStop; Sleep Second; TimerReset (2 * Second);
           WriteTo next Sample.ip] ++ tail)%list.
Proof.
  split; [reflexivity|]. split; [reflexivity|].
  destruct (other_message_ends_cycle Sample.dual_p []
              (Dual.mkRecvResult
                 (Some (mkMessage ipv4_ICMPTypeTimeExceeded 0 OtherBody)) 57 None)
              Sample.c_recv (mkMessage ipv4_ICMPTypeTimeExceeded 0 OtherBody)
              eq_refl eq_refl eq_refl eq_refl) as (next & tail & Ht & _).
  exists next, tail. exact Ht.
Defined.

(** ** What the receiver hands over *)

(** X8: in both variants the receiver hands over one value for each
    datagram read, up to the first read, or parsing, that fails and that
    one; it has returned exactly when one failed, and waits in the read
    otherwise. *)
Theorem receiver_forwards_until_failure :
  (forall p reads,
     List.length (fst (Dual.recvEchoReply p reads))
     = List.length (take_until (Dual_read_fails p) reads)
     /\ snd (Dual.recvEchoReply p reads)
        = if existsb (Dual_read_fails p) reads then Dual.RecvReturned
          else Dual.InRead)
  /\ (forall reads,
        List.length (Main.forwarded (fst (Main.recvEchoReply reads)))
        = List.length (take_until Main_read_fails reads)
        /\ snd (Main.recvEchoReply reads)
           = if existsb Main_read_fails reads then Main.RecvReturned
             else Main.InRead).
Proof.
  split.
  - intros p reads. induction reads as [|rd reads IH]; [split; reflexivity|].
    cbn [Dual.recvEchoReply take_until existsb].
    destruct rd as [e|cm parse]; cbn [Dual_read_fails].
    + destruct (negb (Dual.isIPv6 p)); split; reflexivity.
    + assert (Hp : (if Dual.isIPv6 p then Protocol ipv6_ICMPTypeEchoReply
                    else Protocol ipv4_ICMPTypeEchoReply)
                   = (if Dual.isIPv6 p then 58 else 1))
        by (destruct (Dual.isIPv6 p); reflexivity).
      assert (Hr : (if negb (Dual.isIPv6 p)
                    then @inr Dual.recvResult _
                           (match cm with Some v => v | None => 0 end, parse)
                    else inr (match cm with Some v => v | None => 0 end, parse))
                   = inr (match cm with Some v => v | None => 0 end, parse))
        by (destruct (negb (Dual.isIPv6 p)); reflexivity).
      rewrite Hr, Hp.
      destruct (parse (if Dual.isIPv6 p then 58 else 1)) as [e|m];
        cbn [orb]; [split; reflexivity|].
      destruct (Dual.recvEchoReply p reads) as [out st].
      cbn [fst snd List.length] in *. destruct IH as [IH1 IH2].
      split; [now rewrite IH1|exact IH2].
  - intros reads. induction reads as [|rd reads IH]; [split; reflexivity|].
    cbn [Main.recvEchoReply take_until existsb].
    destruct rd as [e|peer buf]; cbn [Main_read_fails Main.ParseMessage];
      [split; reflexivity|].
    destruct (Main.parsed buf) as [e|m]; cbn [orb]; [split; reflexivity|].
    destruct (Main.recvEchoReply reads) as [out st].
    cbn [fst snd] in *. destruct IH as [IH1 IH2].
    destruct (ICMPType_eqb (Type_ m) ipv4_ICMPTypeEchoReply);
      cbn [fst snd Main.forwarded List.length];
      (split; [now rewrite IH1|exact IH2]).
Qed.

Lemma ICMPType_eqb_eq (a b : ICMPType) : ICMPType_eqb a b = true -> a = b.
Proof.
  destruct a as [n|n], b as [k|k]; cbn; try discriminate;
    intros H; apply Z.eqb_eq in H; now subst.
Qed.

(** X9: in the IPv4-only variant a value handed over by the receiver either
    holds no error and a buffer that parses to an IPv4 echo reply, or holds
    an error and no buffer; for the second kind [handleRecv], which is given
    the buffer only, prints [Handle receive error: message too short],
    whatever the error was. *)
Theorem Main_forwarded_results reads r :
  In r (Main.forwarded (fst (Main.recvEchoReply reads))) ->
  (Main.err r = None
   /\ exists buf m,
        Main.bytes r = Some buf /\ Main.parsed buf = inr m
        /\ Type_ m = ipv4_ICMPTypeEchoReply)
  \/ (Main.err r <> None /\ Main.bytes r = None
      /\ forall fmt_v p now,
           Main.handleRecv fmt_v p (Main.bytes r) now
           = Ok [Printf "Handle receive error: message too short"]).
Proof.
  assert (Herr : forall e,
            Main.err (Main.mkRecvResult None (Some e)) <> None
            /\ Main.bytes (Main.mkRecvResult None (Some e)) = None
            /\ forall fmt_v p now,
                 Main.handleRecv fmt_v p
                   (Main.bytes (Main.mkRecvResult None (Some e))) now
                 = Ok [Printf "Handle receive error: message too short"]).
  { intros e. repeat split. discriminate. }
  induction reads as [|rd reads IH]; cbn [Main.recvEchoReply].
  - intros [].
  - destruct rd as [e|peer buf]; cbn [Main.ParseMessage fst Main.forwarded].
    + intros [<-|[]]. right. apply Herr.
    + destruct (Main.parsed buf) as [e|m] eqn:Hp;
        cbn [fst Main.forwarded].
      * intros [<-|[]]. right. apply Herr.
      * destruct (Main.recvEchoReply reads) as [out st]. cbn [fst] in IH.
        destruct (ICMPType_eqb (Type_ m) ipv4_ICMPTypeEchoReply) eqn:Hty;
          cbn [fst Main.forwarded]; intros [<-|Hin]; try (apply IH, Hin).
        -- left. split; [reflexivity|]. exists buf, m.
           repeat split; [exact Hp|apply ICMPType_eqb_eq, Hty].
        -- right. apply Herr.
Qed.

Lemma Main_forwarded_results_witness :
  In (Main.mkRecvResult None
        (Some "Send echo error: not echo reply message type"))
    (Main.forwarded
       (fst (Main.recvEchoReply
               [Main.ReadOk "1.2.3.4"
                  (Main.mkBuffer
                     (inr (mkMessage ipv4_ICMPTypeTimeExceeded 0 OtherBody)))])))
  /\ Main.handleRecv Duration_String Sample.main_p None Sample.t_recv
     = Ok [Printf "Handle receive error: message too short"].
Proof.
  assert (Hin : In (Main.mkRecvResult None
                      (Some "Send echo error: not echo reply message type"))
                  (Main.forwarded
                     (fst (Main.recvEchoReply
                             [Main.ReadOk "1.2.3.4"
                                (Main.mkBuffer
                                   (inr (mkMessage ipv4_ICMPTypeTimeExceeded 0
                                           OtherBody)))]))))
    by (left; reflexivity).
  split; [exact Hin|].
  destruct (Main_forwarded_results _ _ Hin) as [(He & _)|(_ & _ & H)].
  - discriminate He.
  - exact (H Duration_String Sample.main_p Sample.t_recv).
Defined.

(** ** When a session ends *)

Lemma Dual_recv_results_ok p reads :
  Forall Dual_read_ok reads ->
  Forall Dual_result_ok (fst (Dual.recvEchoReply p reads)).
Proof.
  induction 1 as [|rd reads Hrd _ IH]; cbn [Dual.recvEchoReply];
    [constructor|].
  assert (Herr : forall e, Forall Dual_result_ok
                             [Dual.mkRecvResult None (-1) (Some e)])
    by (intros e; repeat constructor).
  destruct rd as [e|cm parse].
  - destruct (negb (Dual.isIPv6 p)); apply Herr.
  - assert (Hr : (if negb (Dual.isIPv6 p)
                  then @inr Dual.recvResult _
                         (match cm with Some v => v | None => 0 end, parse)
                  else inr (match cm with Some v => v | None => 0 end, parse))
                 = inr (match cm with Some v => v | None => 0 end, parse))
      by (destruct (negb (Dual.isIPv6 p)); reflexivity).
    rewrite Hr.
    destruct (parse _) as [e|m] eqn:Hp; [apply Herr|].
    destruct (Dual.recvEchoReply p reads) as [out st]. cbn [fst] in *.
    constructor; [|exact IH].
    unfold Dual_result_ok. cbn [Dual.err Dual.msg].
    destruct (Body m) as [bID bSeq bData|] eqn:Hb; [|exact I].
    exact (Hrd _ _ _ _ _ Hp Hb).
Qed.

Lemma Dual_loop_body_exit p ch c :
  Forall Dual_result_ok ch ->
  Dual.it_exit (Dual.loop_body p ch c)
  = (if write_fails c then Break else Continue)
  /\ Forall Dual_result_ok (Dual.it_chan (Dual.loop_body p ch c)).
Proof.
  intros Hch. unfold Dual.loop_body, write_fails, Dual.sendEcho.
  destruct (sel c), ch as [|res ch']; cbn [bind].
  1-3: destruct (write_err c); cbn; split; (reflexivity || assumption).
  inversion Hch as [|? ? Hres Hch']; subst.
  assert (Hh : exists es,
            match Dual.err res with
            | Some e =>
                Ok [Printf ("Error during message receiving: " ++ e ++ "."
                            ++ nl)%string]
            | None =>
                Dual.handleMsg p (Dual.msg res) (Dual.res_ttl res) (now_recv c)
            end = Ok es).
  { unfold Dual_result_ok in Hres.
    destruct (Dual.err res); [eexists; reflexivity|].
    destruct (Dual.msg res) as [m|]; [|contradiction].
    destruct (Dual.handleMsg p (Some m) (Dual.res_ttl res) (now_recv c))
      as [es|] eqn:Hm; [eexists; reflexivity|].
    apply Dual_handleMsg_panic_inv in Hm.
    destruct Hm as (bID & bSeq & d & Hb & Hl). rewrite Hb in Hres. lia. }
  destruct Hh as [es ->]. cbn [bind].
  destruct (write_err c); cbn; split; (reflexivity || assumption).
Qed.

Lemma Dual_for_loop_status p ch cs :
  Forall Dual_result_ok ch ->
  Dual.status (Dual.for_loop p ch cs)
  = if existsb write_fails cs then Returned None else InSelect.
Proof.
  revert p ch. induction cs as [|c cs IH]; intros p ch Hch;
    cbn [Dual.for_loop existsb]; [reflexivity|].
  destruct (Dual_loop_body_exit p ch c Hch) as [He Hc]. rewrite He.
  destruct (write_fails c); cbn [orb Dual.status]; [reflexivity|].
  apply IH, Hc.
Qed.

(** X10: a session of the IPv4/IPv6 variant whose datagrams carry eight
    bytes of payload at least never panics and never returns an error: it has
    returned [nil] when a write of the loop has failed, and stands in the
    [select] of the loop otherwise, whatever was received. *)
Theorem Dual_session_ends_on_write_failure_only p now0 werr0 reads cs :
  Forall Dual_read_ok reads ->
  Dual.status (Dual.session p now0 werr0 reads cs)
  = if existsb write_fails cs then Returned None else InSelect.
Proof.
  intros Hr. unfold Dual.session, Dual.pingLoop.
  destruct (Dual.sendEcho p now0 werr0) as [[p1 ws] r0]. cbn [Dual.status].
  apply Dual_for_loop_status, Dual_recv_results_ok, Hr.
Qed.

Lemma Dual_session_ends_on_write_failure_only_witness :
  Forall Dual_read_ok
    [Dual.ReadOk (Some 57) (fun _ => inr (Sample.echo_reply 5 12));
     Dual.ReadErr "use of closed network connection"]
  /\ Dual.status
       (Dual.session Sample.dual_p Sample.t_sent None
          [Dual.ReadOk (Some 57) (fun _ => inr (Sample.echo_reply 5 12));
           Dual.ReadErr "use of closed network connection"]
          [Sample.c_recv; Sample.c_recv; Sample.c_timer])
     = InSelect.
Proof.
  assert (Hr : Forall Dual_read_ok
                 [Dual.ReadOk (Some 57) (fun _ => inr (Sample.echo_reply 5 12));
                  Dual.ReadErr "use of closed network connection"]).
  { repeat constructor. intros proto m bID bSeq bData [= <-] [= _ _ <-].
    vm_compute. lia. }
  split; [exact Hr|].
  exact (Dual_session_ends_on_write_failure_only Sample.dual_p Sample.t_sent
           None _ [Sample.c_recv; Sample.c_recv; Sample.c_timer] Hr).
Defined.

Lemma Main_recv_results_ok reads :
  Forall Main_read_ok reads ->
  Forall Main_result_ok (Main.forwarded (fst (Main.recvEchoReply reads))).
Proof.
  assert (Herr : forall e, Main_result_ok (Main.mkRecvResult None (Some e))).
  { intros e m bID bSeq bData H. discriminate H. }
  induction 1 as [|rd reads Hrd _ IH]; cbn [Main.recvEchoReply];
    [constructor|].
  destruct rd as [e|peer buf]; cbn [Main.ParseMessage].
  - repeat constructor. apply Herr.
  - destruct (Main.parsed buf) as [e|m] eqn:Hp.
    + repeat constructor. apply Herr.
    + destruct (Main.recvEchoReply reads) as [out st]. cbn [fst] in *.
      destruct (ICMPType_eqb (Type_ m) ipv4_ICMPTypeEchoReply);
        cbn [fst Main.forwarded]; (constructor; [|exact IH]).
      * intros m' bID bSeq bData Hm Hb. cbn in Hm. exact (Hrd _ _ _ _ Hm Hb).
      * apply Herr.
Qed.

Lemma Main_loop_body_exit fmt_v p ch c :
  Forall Main_result_ok ch ->
  Main.it_exit (Main.loop_body fmt_v p ch c)
  = (if write_fails c then Break else Continue)
  /\ Forall Main_result_ok (Main.it_chan (Main.loop_body fmt_v p ch c)).
Proof.
  intros Hch. unfold Main.loop_body, write_fails, Main.sendEcho.
  destruct (sel c), ch as [|res ch']; cbn [bind].
  1-3: destruct (write_err c); cbn; split; (reflexivity || assumption).
  inversion Hch as [|? ? Hres Hch']; subst.
  destruct (Main.handleRecv fmt_v p (Main.bytes res) (now_recv c))
    as [es|] eqn:Hh; cbn [bind].
  - destruct (write_err c); cbn; split; (reflexivity || assumption).
  - apply Main_handleRecv_panic_inv in Hh.
    destruct Hh as (m & bID & bSeq & d & Hm & Hb & Hl).
    pose proof (Hres _ _ _ _ Hm Hb). lia.
Qed.

Lemma Main_for_loop_status fmt_v p ch cs :
  Forall Main_result_ok ch ->
  Main.status (Main.for_loop fmt_v p ch cs)
  = if existsb write_fails cs then Returned None else InSelect.
Proof.
  revert p ch. induction cs as [|c cs IH]; intros p ch Hch;
    cbn [Main.for_loop existsb]; [reflexivity|].
  destruct (Main_loop_body_exit fmt_v p ch c Hch) as [He Hc]. rewrite He.
  destruct (write_fails c); cbn [orb Main.status]; [reflexivity|].
  apply IH, Hc.
Qed.

(** X11: the same for a session of the IPv4-only variant. *)
Theorem Main_session_ends_on_write_failure_only fmt_v p now0 werr0 reads cs :
  Forall Main_read_ok reads ->
  Main.status (Main.session fmt_v p now0 werr0 reads cs)
  = if existsb write_fails cs then Returned None else InSelect.
Proof.
  intros Hr. unfold Main.session, Main.pingLoop.
  destruct (Main.sendEcho p now0 werr0) as [ws r0]. cbn [Main.status].
  apply Main_for_loop_status, Main_recv_results_ok, Hr.
Qed.

Lemma Main_session_ends_on_write_failure_only_witness :
  Forall Main_read_ok
    [Main.ReadOk "1.2.3.4" (Main.mkBuffer (inr (Sample.echo_reply 5 11)));
     Main.ReadErr "use of closed network connection"]
  /\ Main.status
       (Main.session Duration_String Sample.main_p Sample.t_sent None
          [Main.ReadOk "1.2.3.4" (Main.mkBuffer (inr (Sample.echo_reply 5 11)));
           Main.ReadErr "use of closed network connection"]
          [Sample.c_recv; Sample.c_recv; Sample.c_send_fails])
     = Returned None.
Proof.
  assert (Hr : Forall Main_read_ok
                 [Main.ReadOk "1.2.3.4"
                    (Main.mkBuffer (inr (Sample.echo_reply 5 11)));
                  Main.ReadErr "use of closed network connection"]).
  { repeat constructor. intros m bID bSeq bData [= <-] [= _ _ <-].
    vm_compute. lia. }
  split; [exact Hr|].
  exact (Main_session_ends_on_write_failure_only Duration_String Sample.main_p
           Sample.t_sent None _
           [Sample.c_recv; Sample.c_recv; Sample.c_send_fails] Hr).
Defined.

(** ** What a run keeps *)

Lemma Dual_prints_ok p es :
  forallb is_Printf es = true -> Forall (Dual_effect_ok p) es.
Proof.
  induction es as [|e es IH]; [constructor|].
  destruct e; cbn; try discriminate. intros H. constructor; [exact I|auto].
Qed.

Lemma Dual_request_ok p sq now :
  Dual_effect_ok p
    (WriteTo
       (mkMessage
          (if negb (Dual.isIPv6 p) then ipv4_ICMPTypeEcho
           else ipv6_ICMPTypeEchoRequest) 0
          (Echo (Dual.id p) sq (timeToBytes now))) (Dual.dst p)).
Proof.
  cbn. repeat split.
  - destruct (Dual.isIPv6 p); reflexivity.
  - exists sq, (timeToBytes now). split; reflexivity.
Qed.

Ltac effects_ok Hw :=
  repeat first
    [ apply Forall_nil
    | assumption
    | apply Forall_cons; [first [exact Hw | exact I | reflexivity]|]
    | apply Forall_app; split ].

Lemma Dual_set_seqnum_idem p n k :
  Dual.set_seqnum (Dual.set_seqnum p n) k = Dual.set_seqnum p k.
Proof. reflexivity. Qed.

Lemma Dual_loop_body_keeps p ch c :
  Forall (Dual_effect_ok p) (Dual.it_trace (Dual.loop_body p ch c))
  /\ exists n, Dual.it_proc (Dual.loop_body p ch c) = Dual.set_seqnum p n.
Proof.
  assert (Hp : p = Dual.set_seqnum p (Dual.seqnum p)) by (destruct p; reflexivity).
  pose proof (Dual_request_ok p (wrap64 (Dual.seqnum p + 1)) (now_send c)) as Hw.
  unfold Dual.loop_body, Dual.sendEcho.
  destruct (sel c), ch as [|res ch']; cbn [bind].
  1-3: destruct (write_err c); cbn [Dual.it_trace Dual.it_proc app];
       (split; [|eexists; reflexivity]); effects_ok Hw.
  destruct (match Dual.err res with Some e => _ | None => _ end)
    as [es|] eqn:Hh; cbn [bind].
  - assert (Hes : Forall (Dual_effect_ok p) es).
    { apply Dual_prints_ok. destruct (Dual.err res).
      - injection Hh as <-. reflexivity.
      - eapply Dual_handleMsg_prints, Hh. }
    destruct (write_err c); cbn [Dual.it_trace Dual.it_proc app];
      (split; [|eexists; reflexivity]); effects_ok Hw.
  - cbn. split; [constructor|]. eexists. exact Hp.
Qed.

Lemma Dual_for_loop_keeps p ch cs :
  Forall (Dual_effect_ok p) (Dual.trace (Dual.for_loop p ch cs))
  /\ exists n, Dual.proc (Dual.for_loop p ch cs) = Dual.set_seqnum p n.
Proof.
  assert (Hp : forall q : Dual.PingProc, q = Dual.set_seqnum q (Dual.seqnum q))
    by (intros q; destruct q; reflexivity).
  revert p ch. induction cs as [|c cs IH]; intros p ch; cbn [Dual.for_loop].
  - cbn. split; [constructor|]. eexists. apply Hp.
  - destruct (Dual_loop_body_keeps p ch c) as [Ht [n Hn]].
    destruct (Dual.it_exit (Dual.loop_body p ch c));
      cbn [Dual.trace Dual.proc].
    + destruct (IH (Dual.it_proc (Dual.loop_body p ch c))
                  (Dual.it_chan (Dual.loop_body p ch c))) as [Ht' [k Hk]].
      rewrite Hn in Ht', Hk |- *. split.
      * apply Forall_app. split; [exact Ht|exact Ht'].
      * exists k. rewrite Hk. apply Dual_set_seqnum_idem.
    + split; [|exists n; exact Hn].
      apply Forall_app. split; [exact Ht|]. effects_ok I.
    + split; [exact Ht|exists n; exact Hn].
Qed.

(** X12: in a run of the IPv4/IPv6 variant every request goes to the
    destination of the session and is an echo request of its family with
    code 0, its identifier and eight bytes of payload; the timer is always
    armed for [rttLimit] and every sleep lasts [interval]; and the run
    changes no field of the session but the sequence number. *)
Theorem Dual_run_keeps_session p now0 werr0 ch cs :
  Forall (Dual_effect_ok p) (Dual.trace (Dual.pingLoop p now0 werr0 ch cs))
  /\ exists n,
       Dual.proc (Dual.pingLoop p now0 werr0 ch cs) = Dual.set_seqnum p n.
Proof.
  unfold Dual.pingLoop.
  assert (Hsend : fst (Dual.sendEcho p now0 werr0)
                  = (Dual.set_seqnum p (wrap64 (Dual.seqnum p + 1)),
                     [WriteTo
                        (mkMessage
                           (if negb (Dual.isIPv6 p) then ipv4_ICMPTypeEcho
                            else ipv6_ICMPTypeEchoRequest) 0
                           (Echo (Dual.id p) (wrap64 (Dual.seqnum p + 1))
                              (timeToBytes now0))) (Dual.dst p)])).
  { unfold Dual.sendEcho. destruct werr0; reflexivity. }
  destruct (Dual.sendEcho p now0 werr0) as [[p1 ws] r0].
  cbn [fst] in Hsend. injection Hsend as -> ->.
  destruct (Dual_for_loop_keeps
              (Dual.set_seqnum p (wrap64 (Dual.seqnum p + 1))) ch cs)
    as [Ht [n Hn]].
  cbn [Dual.trace Dual.proc]. split.
  - pose proof (Dual_request_ok p (wrap64 (Dual.seqnum p + 1)) now0) as Hw.
    cbn [app]. effects_ok Hw.
  - exists n. rewrite Hn. apply Dual_set_seqnum_idem.
Qed.

Lemma Main_prints_ok p es :
  forallb is_Printf es = true -> Forall (Main_effect_ok p) es.
Proof.
  induction es as [|e es IH]; [constructor|].
  destruct e; cbn; try discriminate. intros H. constructor; [exact I|auto].
Qed.

Lemma Main_request_ok p sq now :
  Main_effect_ok p
    (WriteTo (mkMessage ipv4_ICMPTypeEcho 0 (Echo (Main.id p) sq (timeToBytes now)))
       (Main.dst p)).
Proof.
  cbn. repeat split. exists sq, (timeToBytes now). split; reflexivity.
Qed.

Lemma Main_loop_body_keeps fmt_v p ch c :
  Forall (Main_effect_ok p) (Main.it_trace (Main.loop_body fmt_v p ch c))
  /\ exists n, Main.it_proc (Main.loop_body fmt_v p ch c) = Main.set_seqnum p n.
Proof.
  assert (Hp : p = Main.set_seqnum p (Main.seqnum p)) by (destruct p; reflexivity).
  pose proof (Main_request_ok p (Main.seqnum p) (now_send c)) as Hw.
  pose proof (Main_request_ok p (wrap64 (Main.seqnum p + 1)) (now_send c)) as Hw'.
  unfold Main.loop_body, Main.sendEcho.
  destruct (sel c), ch as [|res ch']; cbn [bind].
  1-3: destruct (write_err c); cbn [Main.it_trace Main.it_proc app];
       (split; [|eexists; reflexivity]); effects_ok Hw'.
  destruct (Main.handleRecv fmt_v p (Main.bytes res) (now_recv c))
    as [es|] eqn:Hh; cbn [bind].
  - assert (Hes : Forall (Main_effect_ok p) es)
      by (eapply Main_prints_ok, Main_handleRecv_prints, Hh).
    destruct (write_err c); cbn [Main.it_trace Main.it_proc app];
      (split; [|exists (Main.seqnum p); exact Hp]); effects_ok Hw.
  - cbn. split; [constructor|]. eexists. exact Hp.
Qed.

Lemma Main_for_loop_keeps fmt_v p ch cs :
  Forall (Main_effect_ok p) (Main.trace (Main.for_loop fmt_v p ch cs))
  /\ exists n, Main.proc (Main.for_loop fmt_v p ch cs) = Main.set_seqnum p n.
Proof.
  assert (Hp : forall q : Main.PingProc, q = Main.set_seqnum q (Main.seqnum q))
    by (intros q; destruct q; reflexivity).
  revert p ch. induction cs as [|c cs IH]; intros p ch; cbn [Main.for_loop].
  - cbn. split; [constructor|]. eexists. apply Hp.
  - destruct (Main_loop_body_keeps fmt_v p ch c) as [Ht [n Hn]].
    destruct (Main.it_exit (Main.loop_body fmt_v p ch c));
      cbn [Main.trace Main.proc].
    + destruct (IH (Main.it_proc (Main.loop_body fmt_v p ch c))
                  (Main.it_chan (Main.loop_body fmt_v p ch c))) as [Ht' [k Hk]].
      rewrite Hn in Ht', Hk |- *. split.
      * apply Forall_app. split; [exact Ht|exact Ht'].
      * exists k. rewrite Hk. reflexivity.
    + split; [|exists n; exact Hn].
      apply Forall_app. split; [exact Ht|]. effects_ok I.
    + split; [exact Ht|exists n; exact Hn].
Qed.

(** X13: in a run of the IPv4-only variant every request goes to the
    destination of the session and is an IPv4 echo request with code 0, its
    identifier and eight bytes of payload; the timer is always armed for
    [rttLimit] and every sleep lasts [interval]; and the run changes no field
    of the session but the sequence number. *)
Theorem Main_run_keeps_session fmt_v p now0 werr0 ch cs :
  Forall (Main_effect_ok p) (Main.trace (Main.pingLoop fmt_v p now0 werr0 ch cs))
  /\ exists n,
       Main.proc (Main.pingLoop fmt_v p now0 werr0 ch cs) = Main.set_seqnum p n.
Proof.
  unfold Main.pingLoop.
  assert (Hsend : fst (Main.sendEcho p now0 werr0)
                  = [WriteTo
                       (mkMessage ipv4_ICMPTypeEcho 0
                          (Echo (Main.id p) (Main.seqnum p) (timeToBytes now0)))
                       (Main.dst p)]).
  { unfold Main.sendEcho. destruct werr0; reflexivity. }
  destruct (Main.sendEcho p now0 werr0) as [ws r0].
  cbn [fst] in Hsend. subst ws.
  destruct (Main_for_loop_keeps fmt_v p ch cs) as [Ht [n Hn]].
  cbn [Main.trace Main.proc]. split.
  - pose proof (Main_request_ok p (Main.seqnum p) now0) as Hw.
    cbn [app]. effects_ok Hw.
  - exists n. exact Hn.
Qed.

(** ** One request for each wait *)

Lemma writes_app (a b : list Effect) : writes (a ++ b) = (writes a + writes b)%nat.
Proof. unfold writes. rewrite filter_app, length_app. reflexivity. Qed.

Lemma writes_prints (es : list Effect) :
  forallb is_Printf es = true -> writes es = O.
Proof.
  induction es as [|e es IH]; [reflexivity|].
  destruct e; cbn; try discriminate. exact IH.
Qed.

Lemma cycle_shape_writes took i r d tr :
  cycle_shape took i r d tr -> writes tr = 1%nat.
Proof.
  intros (m & tail & Htail & H). destruct took.
  - destruct H as (prints & Hp & ->).
    rewrite !writes_app, (writes_prints _ Hp), (writes_prints _ Htail).
    reflexivity.
  - destruct H as (line & ->).
    rewrite !writes_app, (writes_prints _ Htail). reflexivity.
Qed.

Lemma Dual_for_loop_writes p ch cs :
  (writes (Dual.trace (Dual.for_loop p ch cs)) <= List.length cs)%nat
  /\ (Dual.status (Dual.for_loop p ch cs) = InSelect ->
      writes (Dual.trace (Dual.for_loop p ch cs)) = List.length cs).
Proof.
  revert p ch. induction cs as [|c cs IH]; intros p ch; cbn [Dual.for_loop].
  - cbn. auto.
  - pose proof (Dual_loop_body_shape p ch c) as Hs.
    pose proof (Dual_loop_body_seq p ch c) as Hq.
    destruct (Dual.it_exit (Dual.loop_body p ch c)) eqn:He;
      cbn [Dual.trace Dual.status List.length].
    + rewrite writes_app,
        (cycle_shape_writes _ _ _ _ _ (Hs ltac:(discriminate))).
      destruct (IH (Dual.it_proc (Dual.loop_body p ch c))
                  (Dual.it_chan (Dual.loop_body p ch c))) as [H1 H2].
      split; [lia|]. intros Hst. rewrite (H2 Hst). reflexivity.
    + rewrite writes_app,
        (cycle_shape_writes _ _ _ _ _ (Hs ltac:(discriminate))).
      cbn. split; [lia|discriminate].
    + destruct Hq as [(_ & Ht & _)|(Hne & _)]; [|congruence].
      rewrite Ht. cbn. split; [lia|discriminate].
Qed.

Lemma Main_for_loop_writes fmt_v p ch cs :
  (writes (Main.trace (Main.for_loop fmt_v p ch cs)) <= List.length cs)%nat
  /\ (Main.status (Main.for_loop fmt_v p ch cs) = InSelect ->
      writes (Main.trace (Main.for_loop fmt_v p ch cs)) = List.length cs).
Proof.
  revert p ch. induction cs as [|c cs IH]; intros p ch; cbn [Main.for_loop].
  - cbn. auto.
  - pose proof (Main_loop_body_shape fmt_v p ch c) as Hs.
    destruct (Main.it_exit (Main.loop_body fmt_v p ch c)) eqn:He;
      cbn [Main.trace Main.status List.length].
    + rewrite writes_app,
        (cycle_shape_writes _ _ _ _ _ (Hs ltac:(discriminate))).
      destruct (IH (Main.it_proc (Main.loop_body fmt_v p ch c))
                  (Main.it_chan (Main.loop_body fmt_v p ch c))) as [H1 H2].
      split; [lia|]. intros Hst. rewrite (H2 Hst). reflexivity.
    + rewrite writes_app,
        (cycle_shape_writes _ _ _ _ _ (Hs ltac:(discriminate))).
      cbn. split; [lia|discriminate].
    + assert (Ht : Main.it_trace (Main.loop_body fmt_v p ch c) = []).
      { revert He. unfold Main.loop_body, Main.sendEcho.
        destruct (sel c), ch as [|res ch']; cbn [bind];
          try (destruct (write_err c); discriminate).
        destruct (Main.handleRecv fmt_v p (Main.bytes res) (now_recv c));
          cbn [bind]; [destruct (write_err c); discriminate|reflexivity]. }
      rewrite Ht. cbn. split; [lia|discriminate].
Qed.

(** X14: stop and wait. In both variants a run writes one request before
    the loop and at most one for each wait of the loop that has ended; when
    the loop stands in its [select] again it has written exactly one for each,
    so never two requests without a wait in between. *)
Theorem one_request_per_wait :
  (forall p now0 werr0 ch cs,
     (writes (Dual.trace (Dual.pingLoop p now0 werr0 ch cs))
      <= S (List.length cs))%nat
     /\ (Dual.status (Dual.pingLoop p now0 werr0 ch cs) = InSelect ->
         writes (Dual.trace (Dual.pingLoop p now0 werr0 ch cs))
         = S (List.length cs)))
  /\ (forall fmt_v p now0 werr0 ch cs,
        (writes (Main.trace (Main.pingLoop fmt_v p now0 werr0 ch cs))
         <= S (List.length cs))%nat
        /\ (Main.status (Main.pingLoop fmt_v p now0 werr0 ch cs) = InSelect ->
            writes (Main.trace (Main.pingLoop fmt_v p now0 werr0 ch cs))
            = S (List.length cs))).
Proof.
  split.
  - intros p now0 werr0 ch cs. unfold Dual.pingLoop.
    assert (Hsend : writes (snd (fst (Dual.sendEcho p now0 werr0))) = 1%nat)
      by (unfold Dual.sendEcho; destruct werr0; reflexivity).
    destruct (Dual.sendEcho p now0 werr0) as [[p1 ws] r0]. cbn [fst snd] in Hsend.
    cbn [Dual.trace Dual.status].
    destruct (Dual_for_loop_writes p1 ch cs) as [H1 H2].
    rewrite !writes_app, Hsend. cbn [writes filter is_WriteTo List.length].
    split; [lia|]. intros Hst. rewrite (H2 Hst). lia.
  - intros fmt_v p now0 werr0 ch cs. unfold Main.pingLoop.
    assert (Hsend : writes (fst (Main.sendEcho p now0 werr0)) = 1%nat)
      by (unfold Main.sendEcho; destruct werr0; reflexivity).
    destruct (Main.sendEcho p now0 werr0) as [ws r0]. cbn [fst] in Hsend.
    cbn [Main.trace Main.status].
    destruct (Main_for_loop_writes fmt_v p ch cs) as [H1 H2].
    rewrite !writes_app, Hsend. cbn [writes filter is_WriteTo List.length].
    split; [lia|]. intros Hst. rewrite (H2 Hst). lia.
Qed.

Lemma one_request_per_wait_witness :
  Dual.status
    (Dual.pingLoop Sample.dual_p Sample.t_sent None [Sample.dual_reply]
       [Sample.c_recv; Sample.c_timer]) = InSelect
  /\ writes
       (Dual.trace
          (Dual.pingLoop Sample.dual_p Sample.t_sent None [Sample.dual_reply]
             [Sample.c_recv; Sample.c_timer]))
     = 3%nat.
Proof.
  split; [reflexivity|].
  exact (proj2 (proj1 one_request_per_wait Sample.dual_p Sample.t_sent None
                  [Sample.dual_reply] [Sample.c_recv; Sample.c_timer]) eq_refl).
Defined.

(** ** From the request to the reported time *)

Lemma bytesToTime_padded (t : Time) (pad : list Z) :
  Time_wf t -> int64_range (nanos t) ->
  bytesToTime (timeToBytes t ++ pad) = Ok t.
Proof.
  intros Hwf Hr.
  assert (H : bytesToTime (timeToBytes t ++ pad) = bytesToTime (timeToBytes t)).
  { rewrite timeToBytes_unfold. cbn [map app].
    rewrite !bytesToTime_unfold. reflexivity. }
  rewrite H, bytesToTime_timeToBytes_UnixNano.
  unfold UnixNano. rewrite wrap64_id by exact Hr.
  rewrite time_Unix_split by exact Hwf. reflexivity.
Qed.

Lemma time_Since_exact (now t : Time) :
  int64_range (nanos now - nanos t) -> time_Since now t = nanos now - nanos t.
Proof.
  unfold time_Since, time_Sub, int64_range. intros H. cbv zeta.
  destruct (nanos now - nanos t <? - 2 ^ 63) eqn:H1;
    [apply Z.ltb_lt in H1; lia|].
  destruct (2 ^ 63 <=? nanos now - nanos t) eqn:H2;
    [apply Z.leb_le in H2; lia|].
  reflexivity.
Qed.

(** X15: in the IPv4/IPv6 variant, when the first request is answered by an
    echo reply that carries its identifier, sequence and payload (followed by
    any padding), the line printed for it reports the sequence of the request,
    the TTL received and the whole milliseconds between the clock at the send
    and the clock at the handling. *)
Theorem Dual_reply_reports_elapsed_time p now0 werr0 c ty co hop pad :
  Time_wf now0 -> int64_range (nanos now0) ->
  int64_range (nanos (now_recv c) - nanos now0) ->
  sel c = PingCh -> is_echo_reply ty = true ->
  exists req tail,
    Dual.trace
      (Dual.pingLoop p now0 werr0
         [Dual.mkRecvResult
            (Some (mkMessage ty co
                     (Echo (Dual.id p) (wrap64 (Dual.seqnum p + 1))
                        (timeToBytes now0 ++ pad)%list))) hop None]
         [c])
    = ([GoRecvEchoReply; WriteTo req (Dual.dst p); NewTimer (Dual.rttLimit p);
        Printf (spec_success_line (IP (Dual.dst p)) (wrap64 (Dual.seqnum p + 1))
                  hop (Z.quot (nanos (now_recv c) - nanos now0) 1000000)
                ++ nl)%string;
        TimerStop; Sleep (Dual.interval p)] ++ tail)%list
    /\ Body req
       = Echo (Dual.id p) (wrap64 (Dual.seqnum p + 1)) (timeToBytes now0).
Proof.
  intros Hwf Hr Hd Hsel Hty.
  pose proof (bytesToTime_padded now0 pad Hwf Hr) as Hdec.
  pose proof (time_Since_exact (now_recv c) now0 Hd) as Hs.
  assert (Hsend : Dual.sendEcho p now0 werr0
                  = (Dual.set_seqnum p (wrap64 (Dual.seqnum p + 1)),
                     [WriteTo
                        (mkMessage
                           (if negb (Dual.isIPv6 p) then ipv4_ICMPTypeEcho
                            else ipv6_ICMPTypeEchoRequest) 0
                           (Echo (Dual.id p) (wrap64 (Dual.seqnum p + 1))
                              (timeToBytes now0))) (Dual.dst p)],
                     snd (Dual.sendEcho p now0 werr0))).
  { unfold Dual.sendEcho. destruct werr0; reflexivity. }
  unfold Dual.pingLoop. rewrite Hsend. cbn [Dual.for_loop].
  unfold Dual.loop_body. rewrite Hsel.
  cbn [Dual.err Dual.msg Dual.res_ttl]. unfold Dual.handleMsg. cbn [Type_].
  unfold is_echo_reply in Hty. rewrite Hty.
  unfold Dual.handleEchoReply.
  cbn [Body Dual.id Dual.seqnum Dual.set_seqnum Dual.dst].
  rewrite !Z.eqb_refl. cbn [andb]. rewrite Hdec. cbn [bind]. rewrite Hs.
  rewrite Dual_success_line. unfold Milliseconds, Dual.sendEcho.
  destruct (write_err c);
    cbn [Dual.it_exit Dual.it_trace Dual.it_proc Dual.it_chan Dual.trace
         Dual.proc Dual.chan Dual.status Dual.for_loop app Dual.rttLimit
         Dual.interval Dual.dst Dual.set_seqnum];
    eexists; eexists; split; reflexivity.
Qed.

Lemma Dual_reply_reports_elapsed_time_witness :
  Time_wf Sample.t_sent
  /\ int64_range (nanos Sample.t_sent)
  /\ int64_range (nanos (now_recv Sample.c_recv) - nanos Sample.t_sent)
  /\ exists req tail,
       Dual.trace
         (Dual.pingLoop Sample.dual_p Sample.t_sent None
            [Dual.mkRecvResult
               (Some (mkMessage ipv4_ICMPTypeEchoReply 0
                        (Echo 5 (wrap64 (11 + 1))
                           (timeToBytes Sample.t_sent ++ [0; 0; 0])%list)))
               57 None]
            [Sample.c_recv])
       = ([GoRecvEchoReply; WriteTo req Sample.ip; NewTimer (2 * Second);
           Printf (spec_success_line "1.2.3.4" (wrap64 (11 + 1)) 57
                     (Z.quot (nanos Sample.t_recv - nanos Sample.t_sent) 1000000)
                   ++ nl)%string;
           TimerStop; Sleep Second] ++ tail)%list.
Proof.
  assert (Hwf : Time_wf Sample.t_sent) by (unfold Time_wf; cbn; lia).
  assert (Hr : int64_range (nanos Sample.t_sent))
    by (unfold int64_range; cbn; lia).
  assert (Hd : int64_range (nanos (now_recv Sample.c_recv) - nanos Sample.t_sent))
    by (unfold int64_range; cbn; lia).
  split; [exact Hwf|]. split; [exact Hr|]. split; [exact Hd|].
  destruct (Dual_reply_reports_elapsed_time Sample.dual_p Sample.t_sent None
              Sample.c_recv ipv4_ICMPTypeEchoReply 0 57 [0; 0; 0]
              Hwf Hr Hd eq_refl eq_refl) as (req & tail & Ht & _).
  exists req, tail. exact Ht.
Defined.

(** X16: in the IPv4-only variant, when the first request is answered by a
    message whose echo body carries its identifier, sequence and payload
    (followed by any padding), the line printed for it reports the duration
    between the clock at the send and the clock at the handling. *)
Theorem Main_reply_reports_elapsed_time fmt_v p now0 werr0 c ty co pad :
  Time_wf now0 -> int64_range (nanos now0) ->
  int64_range (nanos (now_recv c) - nanos now0) ->
  sel c = PingCh ->
  exists req tail,
    Main.trace
      (Main.pingLoop fmt_v p now0 werr0
         [Main.mkRecvResult
            (Some (Main.mkBuffer
                     (inr (mkMessage ty co
                             (Echo (Main.id p) (Main.seqnum p)
                                (timeToBytes now0 ++ pad)%list)))))
            None]
         [c])
    = ([GoRecvEchoReply; WriteTo req (Main.dst p); NewTimer (Main.rttLimit p);
        Printf ("64 bytes from " ++ IP (Main.dst p) ++ ": time="
                ++ fmt_v (nanos (now_recv c) - nanos now0) ++ nl)%string;
        TimerStop; Sleep (Main.interval p)] ++ tail)%list
    /\ Body req = Echo (Main.id p) (Main.seqnum p) (timeToBytes now0).
Proof.
  intros Hwf Hr Hd Hsel.
  pose proof (bytesToTime_padded now0 pad Hwf Hr) as Hdec.
  pose proof (time_Since_exact (now_recv c) now0 Hd) as Hs.
  assert (Hsend : fst (Main.sendEcho p now0 werr0)
                  = [WriteTo
                       (mkMessage ipv4_ICMPTypeEcho 0
                          (Echo (Main.id p) (Main.seqnum p) (timeToBytes now0)))
                       (Main.dst p)]).
  { unfold Main.sendEcho. destruct werr0; reflexivity. }
  unfold Main.pingLoop.
  destruct (Main.sendEcho p now0 werr0) as [ws r0]. cbn [fst] in Hsend. subst ws.
  cbn [Main.for_loop]. unfold Main.loop_body. rewrite Hsel.
  cbn [Main.bytes]. unfold Main.handleRecv.
  cbn [Main.ParseMessage Main.parsed Body].
  rewrite !Z.eqb_refl. cbn [andb]. rewrite Hdec. cbn [bind]. rewrite Hs.
  unfold Main.sendEcho.
  destruct (write_err c);
    cbn [Main.it_exit Main.it_trace Main.it_proc Main.it_chan Main.trace
         Main.proc Main.chan Main.status Main.for_loop app];
    eexists; eexists; split; reflexivity.
Qed.

Lemma Main_reply_reports_elapsed_time_witness :
  Time_wf Sample.t_sent
  /\ int64_range (nanos Sample.t_sent)
  /\ int64_range (nanos (now_recv Sample.c_recv) - nanos Sample.t_sent)
  /\ exists req tail,
       Main.trace
         (Main.pingLoop Duration_String Sample.main_p Sample.t_sent None
            [Main.mkRecvResult
               (Some (Main.mkBuffer
                        (inr (mkMessage ipv4_ICMPTypeEchoReply 0
                                (Echo 5 11
                                   (timeToBytes Sample.t_sent ++ [0; 0; 0])%list)))))
               None]
            [Sample.c_recv])
       = ([GoRecvEchoReply; WriteTo req Sample.ip;
           NewTimer (2000 * Millisecond);
           Printf ("64 bytes from 1.2.3.4: time=20ms" ++ nl)%string;
           TimerStop; Sleep (1300 * Millisecond)] ++ tail)%list.
Proof.
  assert (Hwf : Time_wf Sample.t_sent) by (unfold Time_wf; cbn; lia).
  assert (Hr : int64_range (nanos Sample.t_sent))
    by (unfold int64_range; cbn; lia).
  assert (Hd : int64_range (nanos (now_recv Sample.c_recv) - nanos Sample.t_sent))
    by (unfold int64_range; cbn; lia).
  split; [exact Hwf|]. split; [exact Hr|]. split; [exact Hd|].
  destruct (Main_reply_reports_elapsed_time Duration_String Sample.main_p
              Sample.t_sent None Sample.c_recv ipv4_ICMPTypeEchoReply 0
              [0; 0; 0] Hwf Hr Hd eq_refl) as (req & tail & Ht & _).
  exists req, tail. exact Ht.
Defined.

(** ** The start of the process *)

Lemma substring_at_append (a b : string) (x : ascii) :
  substring (String.length a) 1 (a ++ String x b) = String x EmptyString.
Proof.
  induction a as [|y a IH]; cbn.
  - destruct b; reflexivity.
  - exact IH.
Qed.

Lemma strings_Index_colon (a b : string) :
  (strings_Index (a ++ ":" ++ b) ":" =? -1) = false.
Proof.
  unfold strings_Index.
  destruct (String.index 0 ":" (a ++ ":" ++ b)) as [n|] eqn:Hi.
  - apply Z.eqb_neq. lia.
  - exfalso.
    apply (index_correct3 0 (String.length a) ":" (a ++ ":" ++ b) Hi);
      [discriminate|lia|].
    apply substring_at_append.
Qed.

(** X17: when the destination holds a colon, the IPv4/IPv6 variant starts
    as an IPv6 session whatever the flag [-6] is: if the start reaches the
    loop, the banner says IPv6, the address was resolved and the connection
    opened on [ip6:ipv6-icmp], the hop limit of the connection was set to the
    value of [-t], and the session has [isIPv6] set. *)
Theorem colon_destination_is_IPv6 w flag6 flagTTL a b rest p :
  args w = (a ++ ":" ++ b)%string :: rest ->
  snd (DualSetup.main w (FlagsParsed (flag6, flagTTL))) = Some p ->
  fst (DualSetup.main w (FlagsParsed (flag6, flagTTL)))
  = [Stdout ("PING " ++ (a ++ ":" ++ b) ++ ", IP version: IPv6, ttl: "
             ++ fmt_d flagTTL ++ "." ++ nl)%string;
     ResolveIPAddr "ip6:ipv6-icmp" (a ++ ":" ++ b)%string;
     ListenPacket "ip6:ipv6-icmp" "";
     SetControlMessageHopLimit; SetHopLimit flagTTL]
  /\ Dual.isIPv6 p = true /\ Dual.ttl p = flagTTL
  /\ Dual.id p = rand1 w /\ Dual.seqnum p = rand2 w.
Proof.
  intros Hargs. unfold DualSetup.main, DualSetup.parseArgs.
  rewrite Hargs. cbn [List.length Nat.eqb nth setup_bind].
  rewrite strings_Index_colon. cbn [negb].
  unfold DualSetup.printSetup. cbn [setup_bind].
  destruct (resolve w "ip6:ipv6-icmp" (a ++ ":" ++ b)%string) as [e|res];
    cbn [setup_bind app snd fst]; [discriminate|].
  unfold DualSetup.getConnection.
  destruct (listen w "ip6:ipv6-icmp" "") as [e|];
    cbn [setup_bind app snd fst Dual.isIPv6 Dual.newPingProc negb Dual.ttl];
    [discriminate|].
  intros [= <-]. repeat split.
Qed.

Lemma colon_destination_is_IPv6_witness :
  exists p,
    snd (DualSetup.main
           (mkWorld "pinger" ["fe80::1"]
              (fun _ _ => inr (mkIPAddr "fe80::1" "")) (fun _ _ => None) 5 10)
           (FlagsParsed (false, 64)))
    = Some p
    /\ Dual.isIPv6 p = true.
Proof.
  eexists.
  assert (H : snd (DualSetup.main
                     (mkWorld "pinger" ["fe80::1"]
                        (fun _ _ => inr (mkIPAddr "fe80::1" ""))
                        (fun _ _ => None) 5 10)
                     (FlagsParsed (false, 64)))
              = Some (Dual.newPingProc (mkIPAddr "fe80::1" "") true 64 5 10))
    by (vm_compute; reflexivity).
  split; [exact H|].
  exact (proj1 (proj2 (colon_destination_is_IPv6
                         (mkWorld "pinger" ["fe80::1"]
                            (fun _ _ => inr (mkIPAddr "fe80::1" ""))
                            (fun _ _ => None) 5 10)
                         false 64 "fe80" ":1" [] _ eq_refl H))).
Defined.

Ltac no_exit :=
  let n := fresh "n" in
  let H := fresh "H" in
  intros n H; cbn in H;
  repeat match goal with
         | H : _ \/ _ |- _ => destruct H as [H|H]
         end;
  solve [discriminate H | contradiction].

(** X18: in both variants the start ends the process only as the last
    thing it does, and exactly when it hands no session to the loop: with
    status 2 when [flag.Parse()] rejects the command line, with status 0 when
    it is asked for help, and with status 1 in every other case (no
    destination, an address that does not resolve, a connection that does
    not open). *)
Theorem start_exit_status :
  (forall w fp,
     match snd (DualSetup.main w fp) with
     | Some _ =>
         no_Exit (fst (DualSetup.main w fp))
         /\ exists flags, fp = FlagsParsed flags
     | None =>
         last (fst (DualSetup.main w fp)) PrintDefaults
         = Exit (match fp with
                 | FlagError _ => 2
                 | FlagHelp _ => 0
                 | FlagsParsed _ => 1
                 end)
         /\ no_Exit (removelast (fst (DualSetup.main w fp)))
     end)
  /\ (forall w fp,
        match snd (MainSetup.main w fp) with
        | Some _ =>
            no_Exit (fst (MainSetup.main w fp))
            /\ exists flags, fp = FlagsParsed flags
        | None =>
            last (fst (MainSetup.main w fp)) PrintDefaults
            = Exit (match fp with
                    | FlagError _ => 2
                    | FlagHelp _ => 0
                    | FlagsParsed _ => 1
                    end)
            /\ no_Exit (removelast (fst (MainSetup.main w fp)))
        end).
Proof.
  split.
  - intros w [out|out|[flag6 flagTTL]];
      [split; [reflexivity|no_exit]..|].
    unfold DualSetup.main, DualSetup.parseArgs, DualSetup.printSetup.
    destruct (List.length (args w) =? 0)%nat; cbn [setup_bind fst snd];
      [split; [reflexivity|no_exit]|].
    destruct (if negb (strings_Index (nth 0 (args w) "") ":" =? -1)
              then true else flag6);
      match goal with
      | |- context [resolve w ?n ?h] => destruct (resolve w n h) as [e|res]
      end; cbn [setup_bind fst snd app];
      try (split; [reflexivity|no_exit]);
      unfold DualSetup.getConnection;
      match goal with
      | |- context [listen w ?n ?a] => destruct (listen w n a) as [e|]
      end;
      cbn [setup_bind fst snd app Dual.isIPv6 Dual.newPingProc negb];
      first [split; [reflexivity|no_exit]
            |split; [no_exit|eexists; reflexivity]].
  - intros w [out|out|[flagIP flagTTL]];
      [split; [reflexivity|no_exit]..|].
    unfold MainSetup.main, MainSetup.parseArgs.
    destruct (List.length (args w) =? 0)%nat; cbn [setup_bind fst snd];
      [split; [reflexivity|no_exit]|].
    match goal with
    | |- context [resolve w ?n ?h] => destruct (resolve w n h) as [e|res]
    end; cbn [setup_bind fst snd app];
      try (split; [reflexivity|no_exit]).
    unfold MainSetup.getConnection.
    match goal with
    | |- context [listen w ?n ?a] => destruct (listen w n a) as [e|]
    end;
      cbn [setup_bind fst snd app];
      first [split; [reflexivity|no_exit]
            |split; [no_exit|eexists; reflexivity]].
Qed.

(** X19: in the IPv4-only variant the flags [-ip] and [-ttl] change the
    banner and nothing else: the session handed to the loop and every event
    after the first are those of the default flags; the address is resolved
    and the connection opened on [ip4:icmp] only, and no TTL or control
    message is ever set on the connection. *)
Theorem Main_flags_change_the_banner_only w flagIP flagTTL :
  snd (MainSetup.main w (FlagsParsed (flagIP, flagTTL)))
  = snd (MainSetup.main w (FlagsParsed ("ipv4", 100)))
  /\ tl (fst (MainSetup.main w (FlagsParsed (flagIP, flagTTL))))
     = tl (fst (MainSetup.main w (FlagsParsed ("ipv4", 100))))
  /\ Forall ipv4_event (fst (MainSetup.main w (FlagsParsed (flagIP, flagTTL)))).
Proof.
  unfold MainSetup.main, MainSetup.parseArgs.
  destruct (List.length (args w) =? 0)%nat; cbn [setup_bind fst snd];
    [repeat split; repeat constructor|].
  match goal with
  | |- context [resolve w ?n ?h] => destruct (resolve w n h) as [e|res]
  end; cbn [setup_bind fst snd app tl];
    [repeat split; repeat constructor|].
  unfold MainSetup.getConnection.
  match goal with
  | |- context [listen w ?n ?a] => destruct (listen w n a) as [e|]
  end; cbn [setup_bind fst snd app tl]; repeat split; repeat constructor.
Qed.

(** ** One unreachable line for each timeout *)

Lemma count_line_app l a b :
  count_line l (a ++ b) = (count_line l a + count_line l b)%nat.
Proof. unfold count_line. rewrite filter_app, length_app. reflexivity. Qed.

Lemma count_unreachable_none ip es :
  forallb starts_not_u es = true -> count_line (unreachable_line ip) es = O.
Proof.
  induction es as [|e es IH]; [reflexivity|].
  cbn [forallb]. intros H. apply andb_true_iff in H. destruct H as [He Hes].
  change (e :: es) with ([e] ++ es)%list.
  rewrite count_line_app, (IH Hes), Nat.add_0_r.
  destruct e as [l| | | | | |]; try reflexivity.
  destruct l as [|c l]; [reflexivity|].
  cbn in He. unfold count_line, unreachable_line. cbn.
  destruct (Ascii.eqb c "u"); [discriminate|reflexivity].
Qed.

Lemma count_unreachable_one ip :
  count_line (unreachable_line ip) [Printf (unreachable_line ip)] = 1%nat.
Proof. unfold count_line. cbn. rewrite String.eqb_refl. reflexivity. Qed.

Lemma Dual_handleMsg_not_u p m hop now es :
  Dual.handleMsg p m hop now = Ok es -> forallb starts_not_u es = true.
Proof.
  unfold Dual.handleMsg, Dual.handleEchoReply, Dual.handleTimeExceeded.
  destruct m as [m|]; [|discriminate].
  destruct (_ || _).
  - destruct (Body m) as [bID bSeq bData|]; cbn [bind].
    + destruct (_ && _); cbn [bind].
      * destruct (bytesToTime bData); cbn [bind]; [|discriminate].
        intros [= <-]. reflexivity.
      * intros [= <-]. reflexivity.
    + intros [= <-]. reflexivity.
  - destruct (_ || _); intros [= <-]; reflexivity.
Qed.

Lemma Main_handleRecv_not_u fmt_v p b now es :
  Main.handleRecv fmt_v p b now = Ok es -> forallb starts_not_u es = true.
Proof.
  unfold Main.handleRecv.
  destruct (Main.ParseMessage b) as [e|m].
  - intros [= <-]. reflexivity.
  - destruct (Body m) as [bID bSeq bData|].
    + destruct (_ && _); cbn [bind].
      * destruct (bytesToTime bData); cbn [bind]; [|discriminate].
        intros [= <-]. reflexivity.
      * intros [= <-]. reflexivity.
    + intros [= <-]. reflexivity.
Qed.

Lemma Dual_loop_body_unreachable p ch c :
  Dual.it_exit (Dual.loop_body p ch c) = Continue ->
  count_line (unreachable_line (Dual.dst p))
    (Dual.it_trace (Dual.loop_body p ch c))
  = (if took_channel c ch then O else 1%nat)
  /\ Dual.it_chan (Dual.loop_body p ch c)
     = (if took_channel c ch then tl ch else ch)
  /\ Dual.dst (Dual.it_proc (Dual.loop_body p ch c)) = Dual.dst p.
Proof.
  pose proof (count_unreachable_one (Dual.dst p)) as H1.
  unfold Dual.loop_body, took_channel, Dual.sendEcho.
  destruct (sel c), ch as [|res ch']; cbn [bind].
  1-3: destruct (write_err c);
       cbn [Dual.it_exit Dual.it_trace Dual.it_chan Dual.it_proc];
       [discriminate|]; intros _;
       (split; [|split; reflexivity]);
       rewrite count_line_app;
       change (Printf ("unreachable: " ++ IP (Dual.dst p) ++ "." ++ nl)%string)
         with (Printf (unreachable_line (Dual.dst p)));
       rewrite H1; reflexivity.
  destruct (match Dual.err res with Some e => _ | None => _ end)
    as [es|] eqn:Hh; cbn [bind].
  - assert (Hes : count_line (unreachable_line (Dual.dst p)) es = O).
    { apply count_unreachable_none. destruct (Dual.err res).
      - injection Hh as <-. reflexivity.
      - eapply Dual_handleMsg_not_u, Hh. }
    destruct (write_err c);
      cbn [Dual.it_exit Dual.it_trace Dual.it_chan Dual.it_proc];
      [discriminate|]; intros _; (split; [|split; reflexivity]).
    rewrite !count_line_app, Hes. reflexivity.
  - cbn. discriminate.
Qed.

Lemma Main_loop_body_unreachable fmt_v p ch c :
  Main.it_exit (Main.loop_body fmt_v p ch c) = Continue ->
  count_line (unreachable_line (Main.dst p))
    (Main.it_trace (Main.loop_body fmt_v p ch c))
  = (if took_channel c ch then O else 1%nat)
  /\ Main.it_chan (Main.loop_body fmt_v p ch c)
     = (if took_channel c ch then tl ch else ch)
  /\ Main.dst (Main.it_proc (Main.loop_body fmt_v p ch c)) = Main.dst p.
Proof.
  pose proof (count_unreachable_one (Main.dst p)) as H1.
  unfold Main.loop_body, took_channel, Main.sendEcho.
  destruct (sel c), ch as [|res ch']; cbn [bind].
  1-3: destruct (write_err c);
       cbn [Main.it_exit Main.it_trace Main.it_chan Main.it_proc];
       [discriminate|]; intros _;
       (split; [|split; reflexivity]);
       rewrite count_line_app;
       change (Printf
                 ("unreachable: "
                  ++ IP (Main.dst
                           (Main.set_seqnum p (wrap64 (Main.seqnum p + 1))))
                  ++ "." ++ nl)%string)
         with (Printf (unreachable_line (Main.dst p)));
       rewrite H1; reflexivity.
  destruct (Main.handleRecv fmt_v p (Main.bytes res) (now_recv c))
    as [es|] eqn:Hh; cbn [bind].
  - assert (Hes : count_line (unreachable_line (Main.dst p)) es = O)
      by (eapply count_unreachable_none, Main_handleRecv_not_u, Hh).
    destruct (write_err c);
      cbn [Main.it_exit Main.it_trace Main.it_chan Main.it_proc];
      [discriminate|]; intros _; (split; [|split; reflexivity]).
    rewrite !count_line_app, Hes. reflexivity.
  - cbn. discriminate.
Qed.

Lemma Dual_for_loop_unreachable p ch cs :
  Dual.status (Dual.for_loop p ch cs) = InSelect ->
  count_line (unreachable_line (Dual.dst p)) (Dual.trace (Dual.for_loop p ch cs))
  = timeouts ch cs.
Proof.
  revert p ch. induction cs as [|c cs IH]; intros p ch;
    cbn [Dual.for_loop timeouts]; [reflexivity|].
  pose proof (Dual_loop_body_unreachable p ch c) as Hb.
  destruct (Dual.it_exit (Dual.loop_body p ch c));
    cbn [Dual.status Dual.trace]; try discriminate.
  destruct (Hb eq_refl) as (Hc & Hch & Hd). intros Hst.
  rewrite count_line_app, Hc, <- Hd, (IH _ _ Hst), Hch.
  destruct (took_channel c ch); reflexivity.
Qed.

Lemma Main_for_loop_unreachable fmt_v p ch cs :
  Main.status (Main.for_loop fmt_v p ch cs) = InSelect ->
  count_line (unreachable_line (Main.dst p))
    (Main.trace (Main.for_loop fmt_v p ch cs))
  = timeouts ch cs.
Proof.
  revert p ch. induction cs as [|c cs IH]; intros p ch;
    cbn [Main.for_loop timeouts]; [reflexivity|].
  pose proof (Main_loop_body_unreachable fmt_v p ch c) as Hb.
  destruct (Main.it_exit (Main.loop_body fmt_v p ch c));
    cbn [Main.status Main.trace]; try discriminate.
  destruct (Hb eq_refl) as (Hc & Hch & Hd). intros Hst.
  rewrite count_line_app, Hc, <- Hd, (IH _ _ Hst), Hch.
  destruct (took_channel c ch); reflexivity.
Qed.

(** X20: in both variants, when the loop stands in its [select] again, the
    line [unreachable: <ip>.] has been printed once for each wait that the
    timer ended, and for no other: no received value, whatever it holds, is
    reported as unreachable. *)
Theorem one_unreachable_line_per_timeout :
  (forall p now0 werr0 ch cs,
     Dual.status (Dual.pingLoop p now0 werr0 ch cs) = InSelect ->
     count_line (unreachable_line (Dual.dst p))
       (Dual.trace (Dual.pingLoop p now0 werr0 ch cs))
     = timeouts ch cs)
  /\ (forall fmt_v p now0 werr0 ch cs,
        Main.status (Main.pingLoop fmt_v p now0 werr0 ch cs) = InSelect ->
        count_line (unreachable_line (Main.dst p))
          (Main.trace (Main.pingLoop fmt_v p now0 werr0 ch cs))
        = timeouts ch cs).
Proof.
  split.
  - intros p now0 werr0 ch cs. unfold Dual.pingLoop.
    assert (Hsend : fst (Dual.sendEcho p now0 werr0)
                    = fst (Dual.sendEcho p now0 None))
      by apply Dual_sendEcho_effects.
    destruct (Dual.sendEcho p now0 werr0) as [[p1 ws] r0].
    cbn [fst] in Hsend. unfold Dual.sendEcho in Hsend.
    injection Hsend as -> ->. cbn [Dual.status Dual.trace]. intros Hst.
    rewrite !count_line_app.
    rewrite <- (Dual_for_loop_unreachable _ ch cs Hst). reflexivity.
  - intros fmt_v p now0 werr0 ch cs. unfold Main.pingLoop.
    assert (Hsend : count_line (unreachable_line (Main.dst p))
                      (fst (Main.sendEcho p now0 werr0)) = O)
      by (unfold Main.sendEcho; destruct werr0; reflexivity).
    destruct (Main.sendEcho p now0 werr0) as [ws r0]. cbn [fst] in Hsend.
    cbn [Main.status Main.trace]. intros Hst.
    rewrite !count_line_app, Hsend.
    rewrite (Main_for_loop_unreachable _ _ ch cs Hst). reflexivity.
Qed.

Lemma one_unreachable_line_per_timeout_witness :
  Dual.status
    (Dual.pingLoop Sample.dual_p Sample.t_sent None [Sample.dual_stale]
       [Sample.c_timer; Sample.c_recv; Sample.c_recv]) = InSelect
  /\ count_line (unreachable_line Sample.ip)
       (Dual.trace
          (Dual.pingLoop Sample.dual_p Sample.t_sent None [Sample.dual_stale]
             [Sample.c_timer; Sample.c_recv; Sample.c_recv]))
     = 2%nat.
Proof.
  split; [reflexivity|].
  exact (proj1 one_unreachable_line_per_timeout Sample.dual_p Sample.t_sent
           None [Sample.dual_stale]
           [Sample.c_timer; Sample.c_recv; Sample.c_recv] eq_refl).
Defined.

(** ** The pause between two requests *)

(** An iteration of the IPv4/IPv6 variant panics only in the receive case,
    on a value that holds no error and either no message or an echo body of
    fewer than eight bytes. *)
Lemma Dual_loop_body_panics p ch c :
  Dual.it_exit (Dual.loop_body p ch c) = BodyPanic ->
  exists res ch',
    ch = res :: ch' /\ sel c = PingCh /\ ~ Dual_result_ok res.
Proof.
  unfold Dual.loop_body, Dual.sendEcho.
  destruct (sel c) eqn:Hsel, ch as [|res ch']; cbn [bind].
  1-3: destruct (write_err c); discriminate.
  destruct (match Dual.err res with Some e => _ | None => _ end)
    as [es|] eqn:Hh; cbn [bind]; [destruct (write_err c); discriminate|].
  intros _. exists res, ch'. repeat split. unfold Dual_result_ok.
  destruct (Dual.err res); [discriminate|].
  destruct (Dual.msg res) as [m|]; [|tauto].
  apply Dual_handleMsg_panic_inv in Hh.
  destruct Hh as (bID & bSeq & d & Hb & Hl). rewrite Hb. lia.
Qed.

Lemma Main_loop_body_panics fmt_v p ch c :
  Main.it_exit (Main.loop_body fmt_v p ch c) = BodyPanic ->
  exists res ch',
    ch = res :: ch' /\ sel c = PingCh /\ ~ Main_result_ok res.
Proof.
  unfold Main.loop_body, Main.sendEcho.
  destruct (sel c) eqn:Hsel, ch as [|res ch']; cbn [bind].
  1-3: destruct (write_err c); discriminate.
  destruct (Main.handleRecv fmt_v p (Main.bytes res) (now_recv c))
    as [es|] eqn:Hh; cbn [bind]; [destruct (write_err c); discriminate|].
  intros _. exists res, ch'. repeat split. intros Hok.
  apply Main_handleRecv_panic_inv in Hh.
  destruct Hh as (m & bID & bSeq & d & Hm & Hb & Hl).
  pose proof (Hok _ _ _ _ Hm Hb). lia.
Qed.

Lemma took_channel_false_cons {R} (c : CycleInput) (res : R) (ch : list R) :
  took_channel c (res :: ch) = false -> sel c <> PingCh.
Proof. unfold took_channel. destruct (sel c); [discriminate|intros H _; discriminate H]. Qed.

Lemma took_channel_true_cons {R} (c : CycleInput) (res : R) (ch : list R) :
  sel c = PingCh -> took_channel c (res :: ch) = true.
Proof. unfold took_channel. intros ->. reflexivity. Qed.

(** C6: in both variants, an iteration ended by the timer never panics: it
    prints its line, arms the timer and writes the next request, with no
    sleep in between. An iteration that takes from the channel a receive
    error, or a message whose echo body, if it has one, holds eight bytes at
    least, does not panic either: after what the handler prints it stops the
    timer and sleeps for the interval before it arms the timer and writes the
    next request. And whatever was taken, an iteration that does not panic
    has the one shape or the other. *)
Theorem inter_gap_after_receive_only :
  (forall p ch c,
     (took_channel c ch = false ->
      Dual.it_exit (Dual.loop_body p ch c) <> BodyPanic
      /\ cycle_shape false (Dual.interval p) (Dual.rttLimit p) (Dual.dst p)
           (Dual.it_trace (Dual.loop_body p ch c)))
     /\ (forall res ch',
           ch = res :: ch' -> sel c = PingCh -> Dual_result_ok res ->
           Dual.it_exit (Dual.loop_body p ch c) <> BodyPanic
           /\ cycle_shape true (Dual.interval p) (Dual.rttLimit p) (Dual.dst p)
                (Dual.it_trace (Dual.loop_body p ch c)))
     /\ (Dual.it_exit (Dual.loop_body p ch c) <> BodyPanic ->
         cycle_shape (took_channel c ch) (Dual.interval p) (Dual.rttLimit p)
           (Dual.dst p) (Dual.it_trace (Dual.loop_body p ch c))))
  /\ (forall fmt_v p ch c,
        (took_channel c ch = false ->
         Main.it_exit (Main.loop_body fmt_v p ch c) <> BodyPanic
         /\ cycle_shape false (Main.interval p) (Main.rttLimit p) (Main.dst p)
              (Main.it_trace (Main.loop_body fmt_v p ch c)))
        /\ (forall res ch',
              ch = res :: ch' -> sel c = PingCh -> Main_result_ok res ->
              Main.it_exit (Main.loop_body fmt_v p ch c) <> BodyPanic
              /\ cycle_shape true (Main.interval p) (Main.rttLimit p)
                   (Main.dst p) (Main.it_trace (Main.loop_body fmt_v p ch c)))
        /\ (Main.it_exit (Main.loop_body fmt_v p ch c) <> BodyPanic ->
            cycle_shape (took_channel c ch) (Main.interval p) (Main.rttLimit p)
              (Main.dst p) (Main.it_trace (Main.loop_body fmt_v p ch c)))).
Proof.
  split.
  - intros p ch c. split; [|split].
    + intros Ht.
      assert (Hx : Dual.it_exit (Dual.loop_body p ch c) <> BodyPanic).
      { intros Hp. apply Dual_loop_body_panics in Hp.
        destruct Hp as (res & ch' & -> & Hsel & _).
        apply took_channel_false_cons in Ht. contradiction. }
      split; [exact Hx|].
      pose proof (Dual_loop_body_shape p ch c Hx) as Hs.
      rewrite Ht in Hs. exact Hs.
    + intros res ch' -> Hsel Hok.
      assert (Hx : Dual.it_exit (Dual.loop_body p (res :: ch') c) <> BodyPanic).
      { intros Hp. apply Dual_loop_body_panics in Hp.
        destruct Hp as (res' & ch'' & [= <- <-] & _ & Hn). contradiction. }
      split; [exact Hx|].
      pose proof (Dual_loop_body_shape p (res :: ch') c Hx) as Hs.
      rewrite (took_channel_true_cons c res ch' Hsel) in Hs. exact Hs.
    + apply Dual_loop_body_shape.
  - intros fmt_v p ch c. split; [|split].
    + intros Ht.
      assert (Hx : Main.it_exit (Main.loop_body fmt_v p ch c) <> BodyPanic).
      { intros Hp. apply Main_loop_body_panics in Hp.
        destruct Hp as (res & ch' & -> & Hsel & _).
        apply took_channel_false_cons in Ht. contradiction. }
      split; [exact Hx|].
      pose proof (Main_loop_body_shape fmt_v p ch c Hx) as Hs.
      rewrite Ht in Hs. exact Hs.
    + intros res ch' -> Hsel Hok.
      assert (Hx : Main.it_exit (Main.loop_body fmt_v p (res :: ch') c)
                   <> BodyPanic).
      { intros Hp. apply Main_loop_body_panics in Hp.
        destruct Hp as (res' & ch'' & [= <- <-] & _ & Hn). contradiction. }
      split; [exact Hx|].
      pose proof (Main_loop_body_shape fmt_v p (res :: ch') c Hx) as Hs.
      rewrite (took_channel_true_cons c res ch' Hsel) in Hs. exact Hs.
    + apply Main_loop_body_shape.
Qed.

Lemma inter_gap_after_receive_only_witness :
  (took_channel Sample.c_timer [Sample.dual_reply] = false
   /\ Dual.it_exit
        (Dual.loop_body Sample.dual_p [Sample.dual_reply] Sample.c_timer)
      <> BodyPanic
   /\ cycle_shape false Second (2 * Second) Sample.ip
        (Dual.it_trace
           (Dual.loop_body Sample.dual_p [Sample.dual_reply] Sample.c_timer)))
  /\ (sel Sample.c_recv = PingCh /\ Dual_result_ok Sample.dual_reply
      /\ Dual.it_exit
           (Dual.loop_body Sample.dual_p [Sample.dual_reply] Sample.c_recv)
         <> BodyPanic
      /\ cycle_shape true Second (2 * Second) Sample.ip
           (Dual.it_trace
              (Dual.loop_body Sample.dual_p [Sample.dual_reply] Sample.c_recv)))
  /\ (took_channel Sample.c_timer [Sample.main_reply] = false
      /\ Main.it_exit
           (Main.loop_body Duration_String Sample.main_p [Sample.main_reply]
              Sample.c_timer)
         <> BodyPanic
      /\ cycle_shape false (1300 * Millisecond) (2000 * Millisecond) Sample.ip
           (Main.it_trace
              (Main.loop_body Duration_String Sample.main_p [Sample.main_reply]
                 Sample.c_timer)))
  /\ (Main_result_ok Sample.main_reply
      /\ Main.it_exit
           (Main.loop_body Duration_String Sample.main_p [Sample.main_reply]
              Sample.c_recv)
         <> BodyPanic
      /\ cycle_shape true (1300 * Millisecond) (2000 * Millisecond) Sample.ip
           (Main.it_trace
              (Main.loop_body Duration_String Sample.main_p [Sample.main_reply]
                 Sample.c_recv))).
Proof.
  assert (HokD : Dual_result_ok Sample.dual_reply)
    by (unfold Dual_result_ok; cbn; vm_compute; lia).
  assert (HokM : Main_result_ok Sample.main_reply).
  { intros m bID bSeq bData [= <-] [= _ _ <-]. vm_compute. lia. }
  destruct inter_gap_after_receive_only as [HD HM].
  split; [|split; [|split]].
  - split; [reflexivity|].
    exact (proj1 (HD Sample.dual_p [Sample.dual_reply] Sample.c_timer) eq_refl).
  - split; [reflexivity|]. split; [exact HokD|].
    exact (proj1 (proj2 (HD Sample.dual_p [Sample.dual_reply] Sample.c_recv))
             Sample.dual_reply [] eq_refl eq_refl HokD).
  - split; [reflexivity|].
    exact (proj1 (HM Duration_String Sample.main_p [Sample.main_reply]
                    Sample.c_timer) eq_refl).
  - split; [exact HokM|].
    exact (proj1 (proj2 (HM Duration_String Sample.main_p [Sample.main_reply]
                           Sample.c_recv))
             Sample.main_reply [] eq_refl eq_refl HokM).
Defined.
